(** * VMTT standardisation: a shallow embedding of [standardize_data.py]

    The script aligns the column layout of a "new" spreadsheet with the
    layout of a "base" spreadsheet.  This development embeds the pure
    table manipulation ([standardize_sheet], [set_column_headers]) and the
    per-file driver ([standardize_data], [read_file], [save_file]) and
    proves the properties the specification states about them.

    Conventions.
    - A cell (and a column label) is a Python scalar: a string, an integer,
      or the missing value NaN.
    - A pandas [DataFrame] is its list of column labels and its list of
      rows.  Real frames are rectangular ([wf_df]).
    - A Python [dict] is an insertion-ordered association list.
    - Printing, exceptions and file writes are threaded through a small
      writer/exception monad [Py].
    - A cell is a value, not a typed storage slot: the dtype pandas
      infers for a column it rebuilds is not modelled, so an integer of
      a data column, which pandas may hand back as a float, is outside
      what the statements on data cell values cover; they are made for
      text and missing cells.
    - A string is a sequence of bytes; the library functions that look
      at characters ([lower], [is_digit], [is_space]) are given on
      ASCII text. *)

From Stdlib Require Import String Ascii ZArith Lia Bool Arith DecimalString
  DecimalNat List.
Import ListNotations.
Open Scope string_scope.
Open Scope list_scope.

Set Implicit Arguments.

(* ================================================================= *)
(** ** Cells *)

Inductive cell : Type :=
| NaN
| Str (s : string)
| Num (z : Z).

Definition cell_eq_dec (a b : cell) : {a = b} + {a <> b}.
Proof.
  decide equality; [apply string_dec | apply Z.eq_dec].
Defined.

(** Equality of dictionary keys and of column labels.  Every value that is
    compared below has been through [fillna] or is an integer of a
    [range], so NaN (which Python never finds equal to itself) is never a
    key. *)
Definition cell_eqb (a b : cell) : bool :=
  if cell_eq_dec a b then true else false.

(** Python truthiness, as used by [if h] in the dict comprehension. *)
Definition truthy (c : cell) : bool :=
  match c with
  | NaN => true
  | Str s => negb (String.eqb s EmptyString)
  | Num z => negb (Z.eqb z 0)
  end.

(** [Series.fillna('')] on one cell. *)
Definition fillna (c : cell) : cell :=
  match c with
  | NaN => Str EmptyString
  | _ => c
  end.

Definition empty : cell := Str EmptyString.

(* ================================================================= *)
(** ** Python dictionaries: insertion-ordered association lists *)

Section Dict.
Variables K V : Type.
Variable eqb : K -> K -> bool.

Definition dict := list (K * V).

Fixpoint dict_get (k : K) (d : dict) : option V :=
  match d with
  | [] => None
  | (k', v) :: d' => if eqb k k' then Some v else dict_get k d'
  end.

(** [d[k] = v]: an existing key keeps its place and takes the new value,
    a new key goes to the end. *)
Fixpoint dict_set (k : K) (v : V) (d : dict) : dict :=
  match d with
  | [] => [(k, v)]
  | (k', v') :: d' =>
      if eqb k k' then (k', v) :: d' else (k', v') :: dict_set k v d'
  end.

Definition dict_keys (d : dict) : list K := map fst d.

Definition dict_mem (k : K) (d : dict) : bool :=
  match dict_get k d with
  | Some _ => true
  | None => false
  end.
End Dict.

(* ================================================================= *)
(** ** Data frames *)

Record DataFrame : Type := mkDF {
  columns : list cell;
  rows : list (list cell)
}.

(** The rectangular shape every pandas frame has. *)
Definition wf_df (df : DataFrame) : Prop :=
  Forall (fun r => length r = length (columns df)) (rows df).

(** [len(df)] *)
Definition len (df : DataFrame) : nat := length (rows df).

(** [df.shape[1]] *)
Definition shape1 (df : DataFrame) : nat := length (columns df).

(** [df.iloc[k]], used only below a guard [k < len(df)]. *)
Definition iloc_row (k : nat) (df : DataFrame) : list cell :=
  nth k (rows df) [].

(** [df.iloc[:k]] *)
Definition iloc_rows_to (k : nat) (df : DataFrame) : DataFrame :=
  mkDF (columns df) (firstn k (rows df)).

(** [df.iloc[k:]] *)
Definition iloc_rows_from (k : nat) (df : DataFrame) : DataFrame :=
  mkDF (columns df) (skipn k (rows df)).

(** [df.iloc[:, :n]] *)
Definition iloc_cols_to (n : nat) (df : DataFrame) : DataFrame :=
  mkDF (firstn n (columns df)) (map (firstn n) (rows df)).

(** One row of [df[label] = v] when the label already exists: every
    column carrying the label is overwritten. *)
Fixpoint overwrite (label v : cell) (cols row : list cell) : list cell :=
  match cols, row with
  | c :: cols', x :: row' =>
      (if cell_eqb label c then v else x) :: overwrite label v cols' row'
  | _, _ => row
  end.

(** [df[label] = v] with a scalar [v]: pandas overwrites the column(s)
    already carrying that label, and appends a new column otherwise. *)
Definition setitem (label v : cell) (df : DataFrame) : DataFrame :=
  if existsb (cell_eqb label) (columns df)
  then mkDF (columns df) (map (overwrite label v (columns df)) (rows df))
  else mkDF (columns df ++ [label]) (map (fun r => r ++ [v]) (rows df)).

(** [range(n)] as a list of integer labels. *)
Definition range (n : nat) : list cell :=
  map (fun i => Num (Z.of_nat i)) (seq 0 n).

(** [pd.concat(dfs, ignore_index=True)] for frames that carry the same
    column labels, which is the only way the script calls it: the rows are
    stacked.  The common dtype pandas gives each stacked column is not
    modelled. *)
Definition concat (dfs : list DataFrame) : DataFrame :=
  mkDF (match dfs with [] => [] | df :: _ => columns df end)
       (flat_map rows dfs).

(* ================================================================= *)
(** ** Effects: printing, exceptions, writing *)

Inductive exn : Type :=
| KeyError (key : string)
| ValueError (msg : string)
| PermissionError (msg : string)
| OtherException (msg : string).

Definition string_of_nat (n : nat) : string :=
  NilEmpty.string_of_uint (Nat.to_uint n).

Definition quote : string := String (ascii_of_nat 39) EmptyString.

(** [str(e)].  For a [KeyError] this is the [repr] of the key, given
    here for keys without quote characters or backslashes, which [repr]
    would escape. *)
Definition str_exn (e : exn) : string :=
  match e with
  | KeyError k => (quote ++ k ++ quote)%string
  | ValueError m => m
  | PermissionError m => m
  | OtherException m => m
  end.

Inductive result (A : Type) : Type :=
| Ok (a : A)
| Raise (e : exn).
Arguments Raise {A} e.

Inductive event : Type :=
| Stdout (line : string)
| ExcelWrite (path : string) (sheets : dict string DataFrame).

Definition Py (A : Type) : Type := (list event * result A)%type.

Definition ret {A} (a : A) : Py A := ([], Ok a).

Definition bind {A B} (m : Py A) (f : A -> Py B) : Py B :=
  match m with
  | (out, Ok a) => let (out', r) := f a in (out ++ out', r)
  | (out, Raise e) => (out, Raise e)
  end.

Definition raise {A} (e : exn) : Py A := ([], Raise e).

Definition print (line : string) : Py unit := ([Stdout line], Ok tt).

Definition lift {A} (r : result A) : Py A := ([], r).

(** [try: m  except <handled>: h e] where [handled e] tells whether the
    clause matches the exception. *)
Definition try_except {A} (m : Py A) (handled : exn -> bool)
           (h : exn -> Py A) : Py A :=
  match m with
  | (out, Raise e) =>
      if handled e then let (out', r) := h e in (out ++ out', r)
      else (out, Raise e)
  | ok => ok
  end.

Declare Scope py_scope.
Delimit Scope py_scope with py.
Notation "x <- m ;; k" := (bind m (fun x => k))
  (at level 61, m at next level, right associativity) : py_scope.
Notation "m ;;; k" := (bind m (fun _ => k))
  (at level 61, right associativity) : py_scope.

Definition printed {A} (m : Py A) : list event := fst m.
Definition outcome {A} (m : Py A) : result A := snd m.

(* ================================================================= *)
(** ** [standardize_sheet] *)

(** [df.columns = labels] raises when the number of labels differs from
    the number of columns. *)
Definition set_columns (labels : list cell) (df : DataFrame)
  : Py DataFrame :=
  if Nat.eqb (length labels) (shape1 df)
  then ret (mkDF labels (rows df))
  else raise (ValueError
         ("Length mismatch: Expected axis has "
          ++ string_of_nat (shape1 df) ++ " elements, new values have "
          ++ string_of_nat (length labels) ++ " elements")%string).

Definition header_row : nat := 9.

(** [enumerate(l)] *)
Definition enumerate {A} (l : list A) : list (nat * A) :=
  combine (seq 0 (length l)) l.

(** [{h: i for i, h in enumerate(new_headers) if h}] *)
Definition new_header_to_col (new_headers : list cell) : dict cell nat :=
  fold_left
    (fun d ih => if truthy (snd ih) then dict_set cell_eqb (snd ih) (fst ih) d
                 else d)
    (enumerate new_headers) [].

(** The list [new_col_indices] after the loop over [base_headers]:
    [new_header_to_col[h] if h in new_header_to_col else None]. *)
Definition new_col_indices (base_headers new_headers : list cell)
  : list (option nat) :=
  map (fun h =>
         if dict_mem cell_eqb h (new_header_to_col new_headers)
         then dict_get cell_eqb h (new_header_to_col new_headers)
         else None)
      base_headers.

(** One turn of the padding loop: [meta_rows[i] = '']. *)
Definition pad_step (meta_rows : DataFrame) (i : nat) : DataFrame :=
  setitem (Num (Z.of_nat i)) empty meta_rows.

(** The padding loop [for i in range(meta_rows.shape[1], num_cols)]. *)
Definition pad_columns (num_cols : nat) (meta_rows : DataFrame)
  : DataFrame :=
  fold_left pad_step
            (seq (shape1 meta_rows) (num_cols - shape1 meta_rows))
            meta_rows.

(** Step 1 of the function: pad or trim the metadata rows to
    [num_cols] columns. *)
Definition fit_meta_rows (num_cols : nat) (meta_rows : DataFrame)
  : DataFrame :=
  if Nat.ltb (shape1 meta_rows) num_cols
  then pad_columns num_cols meta_rows
  else if Nat.ltb num_cols (shape1 meta_rows)
       then iloc_cols_to num_cols meta_rows
       else meta_rows.

(** The inner loop building one output data row.  [len(row)] is the
    number of cells of the row, which for a rectangular frame is the
    number of columns. *)
Definition remap_row (indices : list (option nat)) (row : list cell)
  : list cell :=
  map (fun col_idx =>
         match col_idx with
         | Some j => if Nat.ltb j (length row) then nth j row empty
                     else empty
         | None => empty
         end)
      indices.

(** [base_headers = list(base_df.iloc[header_row].fillna(''))] *)
Definition base_headers_of (base_df : DataFrame) : list cell :=
  map fillna (iloc_row header_row base_df).

(** [new_headers = list(new_df.iloc[header_row].fillna(''))] *)
Definition new_headers_of (new_df : DataFrame) : list cell :=
  map fillna (iloc_row header_row new_df).

Definition standardize_sheet (base_df new_df : DataFrame) : Py DataFrame :=
  (if Nat.leb (len base_df) header_row || Nat.leb (len new_df) header_row
   then
     print "WARNING: Not enough rows to standardize. Skipping sheet." ;;;
     ret new_df
   else
     let base_headers := base_headers_of base_df in
     let new_headers := new_headers_of new_df in
     let standardized_headers := base_headers in
     let indices := new_col_indices base_headers new_headers in
     let num_cols := length standardized_headers in
     let meta_rows := iloc_rows_to header_row new_df in
     let meta_rows := fit_meta_rows num_cols meta_rows in
     meta_rows <- set_columns (range num_cols) meta_rows ;;
     let header_row_df := mkDF (range num_cols) [standardized_headers] in
     let data_rows := iloc_rows_from (header_row + 1) new_df in
     let new_data := map (remap_row indices) (rows data_rows) in
     let standardized :=
       match new_data with
       | _ :: _ =>
           let data_df := mkDF (range num_cols) new_data in
           concat [meta_rows; header_row_df; data_df]
       | [] => concat [meta_rows; header_row_df]
       end in
     set_columns (range num_cols) standardized)%py.

(* ================================================================= *)
(** ** [set_column_headers] *)

Definition set_column_headers (df : DataFrame) (title : string)
  : Py DataFrame :=
  if Nat.eqb (shape1 df) 0 then ret df
  else
    let new_columns := Str title :: repeat empty (shape1 df - 1) in
    set_columns new_columns df.

(* ================================================================= *)
(** ** Files: [read_file] and [save_file] *)

(** A workbook: the dict from sheet name to frame that [read_file]
    returns and [save_file] receives. *)
Definition workbook : Type := dict string DataFrame.

(** What pandas does on the disk is not part of the script.  A [world]
    gives the result of each of its three entry points. *)
Record world : Type := mkWorld {
  pd_read_csv : string -> result DataFrame;
  pd_read_excel : string -> result workbook;
  excel_writer : string -> workbook -> result unit
}.

(** [l.rfind(c)], scanning left to right and keeping the last hit. *)
Fixpoint rfind (c : ascii) (l : list ascii) (i : nat) (found : option nat)
  : option nat :=
  match l with
  | [] => found
  | x :: l' => rfind c l' (S i) (if Ascii.eqb x c then Some i else found)
  end.

Definition dot : ascii := ascii_of_nat 46.
Definition slash : ascii := ascii_of_nat 47.

(** [os.path.splitext(p)[1]] (POSIX flavour): the suffix from the last
    dot of the last path component, unless only dots precede it there. *)
Definition splitext_ext (p : string) : string :=
  let l := list_ascii_of_string p in
  match rfind dot l 0 None with
  | None => EmptyString
  | Some d =>
      let start := match rfind slash l 0 None with
                   | None => 0
                   | Some s => S s
                   end in
      if Nat.leb start d
         && existsb (fun c => negb (Ascii.eqb c dot))
                    (firstn (d - start) (skipn start l))
      then string_of_list_ascii (skipn d l)
      else EmptyString
  end.

Definition lower_ascii (c : ascii) : ascii :=
  let n := nat_of_ascii c in
  if Nat.leb 65 n && Nat.leb n 90 then ascii_of_nat (n + 32) else c.

(** [s.lower()] on ASCII text. *)
Definition lower (s : string) : string :=
  string_of_list_ascii (map lower_ascii (list_ascii_of_string s)).

Definition read_file (w : world) (file_path : string) : Py workbook :=
  (let file_extension := lower (splitext_ext file_path) in
   if String.eqb file_extension ".csv" then
     df <- lift (pd_read_csv w file_path) ;;
     ret [("Sheet1", df)]
   else if String.eqb file_extension ".xlsx" then
     lift (pd_read_excel w file_path)
   else
     raise (ValueError
       ("Unsupported file format: " ++ file_extension
        ++ ". Please use .csv or .xlsx files.")%string))%py.

(** The [ExcelWrite] event records the call of the writer with the
    sheets handed to it; the world tells whether the write completes. *)
Definition save_file (w : world) (df_dict : workbook) (file_path : string)
  : Py unit :=
  let file_extension := lower (splitext_ext file_path) in
  if String.eqb file_extension ".xlsx" then
    ([ExcelWrite file_path df_dict], excel_writer w file_path df_dict)
  else
    raise (ValueError
      ("Unsupported file format: " ++ file_extension
       ++ ". Please use .xlsx files.")%string).

(* ================================================================= *)
(** ** [standardize_data] *)

Definition nl : string := String (ascii_of_nat 10) EmptyString.

Definition report_title : string :=
  "Information Security Performance Indicator Reporting (ISPIRI)".

(** [d[k]] on a dict with string keys. *)
Definition getitem {V} (k : string) (d : dict string V) : Py V :=
  match dict_get String.eqb k d with
  | Some v => ret v
  | None => raise (KeyError k)
  end.

(** [sub in s] *)
Definition contains (sub s : string) : bool :=
  match String.index 0 sub s with
  | Some _ => true
  | None => false
  end.

Definition is_PermissionError (e : exn) : bool :=
  match e with
  | PermissionError _ => true
  | _ => false
  end.

(** One turn of the loop over [base_sheets.keys()]; the value is the
    dict [standardized_sheets] after the turn. *)
Definition process_sheet (base_sheets new_sheets : workbook)
           (standardized_sheets : workbook) (sheet_name : string)
  : Py workbook :=
  (sheet <-
     (if String.eqb sheet_name "Doc info" || String.eqb sheet_name "Summary"
      then getitem sheet_name new_sheets
      else
        base_df <- getitem sheet_name base_sheets ;;
        new_df <- getitem sheet_name new_sheets ;;
        standardize_sheet base_df new_df) ;;
   sheet <- set_column_headers sheet report_title ;;
   let standardized_sheets :=
     dict_set String.eqb sheet_name sheet standardized_sheets in
   print (nl ++ "Processing sheet: " ++ sheet_name)%string ;;;
   base_df <- getitem sheet_name base_sheets ;;
   print ("Base file columns: " ++ string_of_nat (shape1 base_df))%string ;;;
   new_df <- getitem sheet_name new_sheets ;;
   print ("New file columns: " ++ string_of_nat (shape1 new_df))%string ;;;
   std_df <- getitem sheet_name standardized_sheets ;;
   print ("Standardized columns: "
          ++ string_of_nat (shape1 std_df))%string ;;;
   ret standardized_sheets)%py.

(** The loop [for sheet_name in base_sheets.keys()]. *)
Fixpoint process_sheets (base_sheets new_sheets : workbook)
         (names : list string) (standardized_sheets : workbook)
  : Py workbook :=
  match names with
  | [] => ret standardized_sheets
  | sheet_name :: names' =>
      (acc <- process_sheet base_sheets new_sheets
                            standardized_sheets sheet_name ;;
       process_sheets base_sheets new_sheets names' acc)%py
  end.

Definition permission_hints : Py unit :=
  (print "1. The file is not currently open in Excel" ;;;
   print "2. You have write permissions for the file" ;;;
   print "3. The file is not set to read-only" ;;;
   print (nl ++ "Please close the file if it's open and try again.")%string)%py.

(** The body of the outer [except Exception as e] clause. *)
Definition error_report (e : exn) : Py unit :=
  (print ("An error occurred: " ++ str_exn e)%string ;;;
   if contains "Permission denied" (str_exn e)
   then print (nl ++ "Please make sure that:")%string ;;;
        permission_hints
   else ret tt)%py.

(** The body of the inner [except PermissionError] clause. *)
Definition save_failure_report (new_file : string) : Py unit :=
  (print (nl ++ "ERROR: Could not save the file '" ++ new_file
          ++ "'.")%string ;;;
   print "Please make sure that:" ;;;
   permission_hints)%py.

(** The inner [try] around [save_file], with its
    [except PermissionError] clause. *)
Definition save_step (w : world) (standardized_sheets : workbook)
           (new_file : string) : Py unit :=
  try_except
    (save_file w standardized_sheets new_file ;;;
     print (nl ++ "File " ++ new_file
            ++ " has been standardized successfully!")%string ;;;
     print "All sheets have their column headers replaced as requested.")%py
    is_PermissionError
    (fun _ => save_failure_report new_file).

Definition standardize_data (w : world) (base_file new_file : string)
  : Py unit :=
  try_except
    (base_sheets <- read_file w base_file ;;
     new_sheets <- read_file w new_file ;;
     standardized_sheets <-
       process_sheets base_sheets new_sheets (dict_keys base_sheets) [] ;;
     save_step w standardized_sheets new_file)%py
    (fun _ => true)
    error_report.

(* ================================================================= *)
(** ** Vocabulary of the specification *)

(** Index of the first cell of [l] equal to [h]. *)
Fixpoint first_index (h : cell) (l : list cell) : option nat :=
  match l with
  | [] => None
  | x :: l' =>
      if cell_eqb h x then Some 0
      else option_map S (first_index h l')
  end.

(** Index of the last cell of [l] equal to [h]. *)
Fixpoint last_index (h : cell) (l : list cell) : option nat :=
  match l with
  | [] => None
  | x :: l' =>
      match last_index h l' with
      | Some j => Some (S j)
      | None => if cell_eqb h x then Some 0 else None
      end
  end.

(** No column label of [new_df] is one of the integers the padding loop
    assigns to.  Labels read from a file header are normally strings, and
    then this holds. *)
Definition labels_fresh (new_df : DataFrame) (num_cols : nat) : Prop :=
  forall i, shape1 new_df <= i < num_cols ->
            ~ In (Num (Z.of_nat i)) (columns new_df).

(** A metadata row padded with empty strings or truncated to [n] cells. *)
Definition fit_row (n : nat) (r : list cell) : list cell :=
  firstn n (r ++ repeat empty (n - length r)).

Definition is_print (e : event) : bool :=
  match e with
  | Stdout _ => true
  | ExcelWrite _ _ => false
  end.

(** The line announcing that a sheet has been processed. *)
Definition processing_line (sheet_name : string) : event :=
  Stdout (nl ++ "Processing sheet: " ++ sheet_name)%string.

(** The rows of the sheet the function assembles: the fitted metadata
    rows, the base header row, the remapped data rows. *)
Definition assembled_rows (base_df new_df : DataFrame) : list (list cell) :=
  rows (fit_meta_rows (length (base_headers_of base_df))
                      (iloc_rows_to header_row new_df))
  ++ [base_headers_of base_df]
  ++ map (remap_row (new_col_indices (base_headers_of base_df)
                                     (new_headers_of new_df)))
         (skipn (header_row + 1) (rows new_df)).

(** Computations that only print. *)
Definition only_prints {A} (m : Py A) : Prop :=
  forallb is_print (printed m) = true.

(** Computations that never emit the event [ev]. *)
Definition quiet_on {A} (ev : event) (m : Py A) : Prop :=
  ~ In ev (printed m).

(** The claims of the specification that the code does not satisfy as
    they are worded, stated as propositions. *)

(** Every lookup of a label resolves to the first target column bearing
    it. *)
Definition first_match_lookup : Prop :=
  forall (base_headers new_headers : list cell) (h : cell) (i j : nat),
    truthy h = true ->
    first_index h new_headers = Some j ->
    nth_error base_headers i = Some h ->
    nth_error (new_col_indices base_headers new_headers) i = Some (Some j).


(** A sheet missing from the target is skipped and the other sheets of
    the base workbook are still processed. *)
Definition missing_sheet_skipped : Prop :=
  forall (w : world) (base_file new_file : string)
         (base_sheets new_sheets : workbook) (missing other : string),
    read_file w base_file = ([], Ok base_sheets) ->
    read_file w new_file = ([], Ok new_sheets) ->
    NoDup (dict_keys base_sheets) ->
    In missing (dict_keys base_sheets) ->
    ~ In missing (dict_keys new_sheets) ->
    In other (dict_keys base_sheets) ->
    In other (dict_keys new_sheets) ->
    In (processing_line other)
       (printed (standardize_data w base_file new_file)).

(* ================================================================= *)
(** ** Sample sheets *)

(** A sheet with string column labels, nine metadata rows, a header row
    and data rows. *)
Definition sheet (labels : list string) (meta header : list cell)
           (data : list (list cell)) : DataFrame :=
  mkDF (map Str labels) (repeat meta header_row ++ header :: data).

(** The example of the specification. *)
Definition ex_base : DataFrame :=
  sheet ["c0"; "c1"; "c2"] [Str "report"; NaN; NaN]
        [Str "Date"; Str "Name"; Str "Status"] [].

Definition ex_target : DataFrame :=
  sheet ["c0"; "c1"] [Str "report"; Str "v2"]
        [Str "Name"; Str "Date"]
        [[Str "Alice"; Str "2024-01-01"]].

(** A target wider than the base, covering all its labels. *)
Definition wide_target : DataFrame :=
  sheet ["c0"; "c1"; "c2"; "c3"] [Str "report"; NaN; NaN; Str "x"]
        [Str "Status"; Str "Name"; Str "Extra"; Str "Date"]
        [[Str "open"; Str "Alice"; Num 7; Str "2024-01-01"];
         [Str "done"; Str "Bob"; NaN; Str "2024-01-02"]].

(** A label repeated in the base and in the target. *)
Definition dup_base : DataFrame :=
  sheet ["c0"; "c1"] [NaN; NaN] [Str "A"; Str "A"] [].

Definition dup_target : DataFrame :=
  sheet ["c0"; "c1"; "c2"] [NaN; NaN; NaN]
        [Str "A"; Str "B"; Str "A"]
        [[Str "first"; Str "middle"; Str "last"]].

(** An unlabelled column with data beneath it. *)
Definition blank_base : DataFrame :=
  sheet ["c0"; "c1"] [NaN; NaN] [Str "Name"; NaN] [].

Definition blank_target : DataFrame :=
  sheet ["c0"; "c1"] [NaN; NaN] [Str "Name"; NaN]
        [[Str "Alice"; Str "note"]].

(** A sheet too short to carry a header row. *)
Definition short_sheet : DataFrame :=
  mkDF [Str "c0"; Str "c1"] [[Str "a"; Str "b"]; [Str "c"; NaN]].

(** A target whose second column label is the integer 2, as a numeric
    header cell gives. *)
Definition numbered_target : DataFrame :=
  mkDF [Str "c0"; Num 2]
       (repeat [NaN; NaN] header_row
        ++ [Str "Name"; Str "Date"] :: [[Str "Alice"; Str "2024-01-01"]]).

(** Two workbooks for the driver: the target lacks sheet "A" of the
    base and has a sheet "Z" of its own. *)
Definition base_book : workbook :=
  [("Doc info", short_sheet); ("A", ex_base); ("B", ex_base)].

Definition new_book : workbook :=
  [("Doc info", short_sheet); ("B", ex_target); ("Z", ex_target)].

(** A target with every sheet of the base, and one more. *)
Definition full_book : workbook :=
  [("Z", ex_target); ("B", ex_target); ("A", wide_target);
   ("Doc info", short_sheet)].

Definition sample_world : world :=
  mkWorld
    (fun _ => Raise (OtherException "no such file"))
    (fun path =>
       if String.eqb path "base.xlsx" then Ok base_book
       else if String.eqb path "new.xlsx" then Ok new_book
       else if String.eqb path "full.xlsx" then Ok full_book
       else Raise (OtherException "no such file"))
    (fun _ _ => Ok tt).

(* ================================================================= *)
(** ** [remove_column_numbering] *)

(** A character of the ASCII range.  A string is a sequence of bytes
    here; text with characters beyond ASCII (which Python also counts
    among its digits and blanks) is outside what [is_digit] and
    [is_space] describe, and the statements that depend on it ask for
    ASCII text. *)
Definition is_ascii (c : ascii) : bool := Nat.ltb (nat_of_ascii c) 128.

Definition ascii_text (s : string) : Prop :=
  forallb is_ascii (list_ascii_of_string s) = true.

(** [\d], on ASCII text. *)
Definition is_digit (c : ascii) : bool :=
  let n := nat_of_ascii c in Nat.leb 48 n && Nat.leb n 57.

Definition newline : ascii := ascii_of_nat 10.

(** What is left of [l] after the longest run of digits at its head. *)
Fixpoint skip_digits (l : list ascii) : list ascii :=
  match l with
  | [] => []
  | c :: l' => if is_digit c then skip_digits l' else l
  end.

(** [$]: the end of the string, or the place just before a newline that
    ends the string. *)
Definition at_end (l : list ascii) : bool :=
  match l with
  | [] => true
  | [c] => Ascii.eqb c newline
  | _ => false
  end.

(** Whether [\d+$] matches at the head of [l]. *)
Definition digits_to_end (l : list ascii) : bool :=
  match l with
  | [] => false
  | d :: _ => is_digit d && at_end (skip_digits l)
  end.

(** [re.sub(r'\.\d+$', '', s)] on the characters of [s]: the leftmost
    match is dropped; what follows it is empty or one newline, where
    the pattern cannot match again. *)
Fixpoint sub_numbering (l : list ascii) : list ascii :=
  match l with
  | [] => []
  | c :: l' =>
      if Ascii.eqb c dot && digits_to_end l' then skip_digits l'
      else c :: sub_numbering l'
  end.

Definition re_sub_numbering (col : string) : string :=
  string_of_list_ascii (sub_numbering (list_ascii_of_string col)).

(** The text of a label, for the [KeyError] of a failed lookup. *)
Definition key_text (col : cell) : string :=
  match col with
  | NaN => "nan"
  | Str s => s
  | Num z => NilZero.string_of_int (Z.to_int z)
  end.

(** The loop filling [column_mapping].  [re.sub] raises [TypeError] on
    a label that is not a string. *)
Fixpoint column_mapping_loop (cols : list cell)
         (column_mapping : dict cell cell) : Py (dict cell cell) :=
  match cols with
  | [] => ret column_mapping
  | col :: cols' =>
      match col with
      | Str s =>
          let new_col := Str (re_sub_numbering s) in
          column_mapping_loop cols'
            (dict_set cell_eqb col new_col column_mapping)
      | _ => raise (OtherException "expected string or bytes-like object")
      end
  end.

(** [[column_mapping[col] for col in df.columns]] *)
Fixpoint mapped_columns (column_mapping : dict cell cell)
         (cols : list cell) : Py (list cell) :=
  match cols with
  | [] => ret []
  | col :: cols' =>
      match dict_get cell_eqb col column_mapping with
      | Some new_col =>
          (rest <- mapped_columns column_mapping cols' ;;
           ret (new_col :: rest))%py
      | None => raise (KeyError (key_text col))
      end
  end.

Definition remove_column_numbering (df : DataFrame) : Py DataFrame :=
  (column_mapping <- column_mapping_loop (columns df) [] ;;
   new_columns <- mapped_columns column_mapping (columns df) ;;
   set_columns new_columns df)%py.

(* ================================================================= *)
(** ** [standardize_folder] *)

(** The directory listing and path resolution the batch driver asks the
    operating system for, beside the [world] of the single-file run. *)
Record filesystem : Type := mkFS {
  fs_world : world;
  glob : string -> list string;
  abspath : string -> string
}.

Definition ends_with_slash (a : string) : bool :=
  match rev (list_ascii_of_string a) with
  | c :: _ => Ascii.eqb c slash
  | [] => false
  end.

(** [os.path.join(a, b)] (POSIX flavour). *)
Definition path_join (a b : string) : string :=
  if String.prefix "/" b then b
  else if String.eqb a "" || ends_with_slash a then (a ++ b)%string
       else (a ++ "/" ++ b)%string.

(** One turn of the loop over the files found. *)
Definition process_file (fs : filesystem) (base_file file_path : string)
  : Py unit :=
  (print (nl ++ "---" ++ nl ++ "Processing file: " ++ file_path)%string ;;;
   try_except
     (standardize_data (fs_world fs) base_file file_path)
     (fun _ => true)
     (fun e =>
        print ("Failed to process " ++ file_path ++ ": "
               ++ str_exn e)%string))%py.

Fixpoint process_files (fs : filesystem) (base_file : string)
         (files : list string) : Py unit :=
  match files with
  | [] => ret tt
  | file_path :: files' =>
      (process_file fs base_file file_path ;;;
       process_files fs base_file files')%py
  end.

(** The list [files] after the filter that leaves the base file out. *)
Definition candidate_files (fs : filesystem)
           (base_file folder_path : string) : list string :=
  let file_patterns :=
    [path_join folder_path "*.xlsx"; path_join folder_path "*.csv"] in
  let files := flat_map (glob fs) file_patterns in
  filter (fun f => negb (String.eqb (abspath fs f) (abspath fs base_file)))
         files.

Definition standardize_folder (fs : filesystem)
           (base_file folder_path : string) : Py unit :=
  let files := candidate_files fs base_file folder_path in
  match files with
  | [] =>
      print ("No .xlsx or .csv files found in " ++ folder_path
             ++ ".")%string
  | _ :: _ => process_files fs base_file files
  end.

(* ================================================================= *)
(** ** [get_input_path] *)

(** [str.isspace] on an ASCII character: tab to carriage return, the
    four separators 28 to 31, and the space. *)
Definition is_space (c : ascii) : bool :=
  let n := nat_of_ascii c in
  (Nat.leb 9 n && Nat.leb n 13) || (Nat.leb 28 n && Nat.leb n 32).

Definition double_quote : ascii := ascii_of_nat 34.

Fixpoint lstrip (drop : ascii -> bool) (l : list ascii) : list ascii :=
  match l with
  | [] => []
  | c :: l' => if drop c then lstrip drop l' else l
  end.

(** [s.strip(...)]: the characters to drop are taken off both ends. *)
Definition strip (drop : ascii -> bool) (l : list ascii) : list ascii :=
  rev (lstrip drop (rev (lstrip drop l))).

(** What [get_input_path] returns when [input(prompt)] gives [path]:
    [path.strip()], then [.strip] of the double quote character. *)
Definition get_input_path (path : string) : string :=
  string_of_list_ascii
    (strip (fun c => Ascii.eqb c double_quote)
           (strip is_space (list_ascii_of_string path))).

(* ================================================================= *)
(** ** More vocabulary *)

Definition is_reserved (sheet_name : string) : bool :=
  String.eqb sheet_name "Doc info" || String.eqb sheet_name "Summary".

(** The sheet one turn of the loop starts from: the target's own sheet
    for the two reserved names, the standardized sheet otherwise. *)
Definition fetched_sheet (base_sheets new_sheets : workbook)
           (sheet_name : string) : Py DataFrame :=
  (if is_reserved sheet_name
   then getitem sheet_name new_sheets
   else
     base_df <- getitem sheet_name base_sheets ;;
     new_df <- getitem sheet_name new_sheets ;;
     standardize_sheet base_df new_df)%py.

(** A frame under the title: what [set_column_headers] returns. *)
Definition titled (df : DataFrame) (title : string) : DataFrame :=
  if Nat.eqb (shape1 df) 0 then df
  else mkDF (Str title :: repeat empty (shape1 df - 1)) (rows df).

Definition is_write (e : event) : bool := negb (is_print e).

(** A world with two [.csv] files, and a workbook that cannot be
    written because it is open elsewhere. *)
Definition office_world : world :=
  mkWorld
    (fun path =>
       if String.eqb path "base.csv" then Ok ex_base
       else if String.eqb path "data.csv" then Ok ex_target
       else Raise (OtherException "no such file"))
    (fun path =>
       if String.eqb path "base.xlsx" then Ok base_book
       else if String.eqb path "full.xlsx" then Ok full_book
       else if String.eqb path "locked.xlsx" then Ok full_book
       else Raise (OtherException "no such file"))
    (fun path _ =>
       if String.eqb path "locked.xlsx"
       then Raise (PermissionError
                     "[Errno 13] Permission denied: 'locked.xlsx'")
       else Ok tt).

(** A folder [reports] holding the base workbook, two other workbooks
    and a [.csv] file. *)
Definition office_fs : filesystem :=
  mkFS office_world
       (fun pattern =>
          if String.eqb pattern "reports/*.xlsx"
          then ["reports/../base.xlsx"; "full.xlsx"; "locked.xlsx"]
          else if String.eqb pattern "reports/*.csv" then ["data.csv"]
          else [])
       (fun path =>
          if String.eqb path "reports/../base.xlsx" then "base.xlsx"
          else path).

(* ================================================================= *)
(** ** Lemmas on dictionaries *)

Unset Implicit Arguments.

Lemma cell_eqb_eq (a b : cell) : cell_eqb a b = true <-> a = b.
Proof.
  unfold cell_eqb. destruct (cell_eq_dec a b); split; congruence.
Qed.

Lemma cell_eqb_refl (a : cell) : cell_eqb a a = true.
Proof. now apply cell_eqb_eq. Qed.

Lemma cell_eqb_neq (a b : cell) : cell_eqb a b = false <-> a <> b.
Proof.
  unfold cell_eqb. destruct (cell_eq_dec a b); split; congruence.
Qed.

Section DictFacts.
Variables K V : Type.
Variable eqb : K -> K -> bool.
Hypothesis eqb_eq : forall a b, eqb a b = true <-> a = b.

Lemma eqb_same (a : K) : eqb a a = true.
Proof. now apply eqb_eq. Qed.

Lemma dict_get_set (k k' : K) (v : V) (d : dict K V) :
  dict_get eqb k (dict_set eqb k' v d)
  = if eqb k k' then Some v else dict_get eqb k d.
Proof.
  induction d as [|[k0 v0] d IH]; simpl.
  - reflexivity.
  - destruct (eqb k' k0) eqn:E0; simpl.
    + apply eqb_eq in E0. subst k0.
      destruct (eqb k k'); reflexivity.
    + destruct (eqb k k0) eqn:E1.
      * destruct (eqb k k') eqn:E2; [|reflexivity].
        apply eqb_eq in E1, E2. subst. rewrite eqb_same in E0.
        discriminate.
      * exact IH.
Qed.

Lemma dict_get_None (k : K) (d : dict K V) :
  dict_get eqb k d = None <-> ~ In k (dict_keys d).
Proof.
  induction d as [|[k0 v0] d IH]; simpl.
  - tauto.
  - destruct (eqb k k0) eqn:E.
    + apply eqb_eq in E. subst. split; [discriminate | tauto].
    + rewrite IH. split.
      * intros H [H1|H1]; [|tauto]. subst. rewrite eqb_same in E.
        discriminate.
      * tauto.
Qed.

Lemma dict_keys_set_new (k : K) (v : V) (d : dict K V) :
  ~ In k (dict_keys d) ->
  dict_keys (dict_set eqb k v d) = dict_keys d ++ [k].
Proof.
  induction d as [|[k0 v0] d IH]; simpl; intros H.
  - reflexivity.
  - destruct (eqb k k0) eqn:E.
    + apply eqb_eq in E. subst. tauto.
    + simpl. f_equal. apply IH. tauto.
Qed.
End DictFacts.

Lemma string_eqb_eq (a b : string) : String.eqb a b = true <-> a = b.
Proof. apply String.eqb_eq. Qed.

Lemma cell_get_set (k k' : cell) (v : nat) (d : dict cell nat) :
  dict_get cell_eqb k (dict_set cell_eqb k' v d)
  = if cell_eqb k k' then Some v else dict_get cell_eqb k d.
Proof. apply dict_get_set, cell_eqb_eq. Qed.

(* ================================================================= *)
(** ** The label-to-index map *)

Lemma last_index_Some (h : cell) (l : list cell) (j : nat) :
  last_index h l = Some j ->
  nth_error l j = Some h /\
  forall k, j < k -> nth_error l k <> Some h.
Proof.
  revert j. induction l as [|x l IH]; simpl; intros j H.
  - discriminate.
  - destruct (last_index h l) as [j'|] eqn:E.
    + injection H as <-. destruct (IH j' eq_refl) as [H1 H2].
      split; [exact H1|]. intros [|k] Hk; [lia|]. simpl.
      apply H2. lia.
    + destruct (cell_eqb h x) eqn:Ex; [|discriminate].
      injection H as <-. apply cell_eqb_eq in Ex. subst x.
      split; [reflexivity|]. intros [|k] Hk; [lia|]. simpl.
      intros Hn. apply nth_error_In in Hn. revert Hn.
      clear - E. induction l as [|y l IHl]; simpl in *; [tauto|].
      destruct (last_index h l); [discriminate|].
      destruct (cell_eqb h y) eqn:Ey; [discriminate|].
      apply cell_eqb_neq in Ey. intros [Hy|Hy]; [congruence|].
      now apply IHl.
Qed.

Lemma last_index_None (h : cell) (l : list cell) :
  last_index h l = None <-> ~ In h l.
Proof.
  induction l as [|x l IH]; simpl.
  - tauto.
  - destruct (last_index h l) as [j|].
    + split; [discriminate|]. intros H. exfalso.
      apply H. right.
      destruct (in_dec cell_eq_dec h l) as [Hi|Hn]; [exact Hi|].
      apply IH in Hn. discriminate.
    + destruct (cell_eqb h x) eqn:Ex.
      * apply cell_eqb_eq in Ex. subst. split; [discriminate|tauto].
      * apply cell_eqb_neq in Ex. split; [|reflexivity].
        intros _ [H|H]; [congruence|]. now apply IH.
Qed.

Lemma fold_header_map (h : cell) (l : list cell) :
  forall (s : nat) (d : dict cell nat),
    dict_get cell_eqb h
      (fold_left
         (fun d ih => if truthy (snd ih)
                      then dict_set cell_eqb (snd ih) (fst ih) d else d)
         (combine (seq s (length l)) l) d)
    = if truthy h
      then match last_index h l with
           | Some j => Some (s + j)
           | None => dict_get cell_eqb h d
           end
      else dict_get cell_eqb h d.
Proof.
  induction l as [|x l IH]; intros s d; simpl.
  - now destruct (truthy h).
  - rewrite IH. destruct (truthy h) eqn:Th.
    + destruct (last_index h l) as [j|].
      * f_equal. lia.
      * destruct (cell_eqb h x) eqn:Ex.
        -- apply cell_eqb_eq in Ex. subst x. rewrite Th.
           rewrite cell_get_set, cell_eqb_refl.
           f_equal. lia.
        -- destruct (truthy x); [|reflexivity].
           now rewrite cell_get_set, Ex.
    + destruct (truthy x) eqn:Tx; [|reflexivity].
      rewrite cell_get_set.
      destruct (cell_eqb h x) eqn:Ex; [|reflexivity].
      apply cell_eqb_eq in Ex. congruence.
Qed.

(** The map sends a truthy label to the index of its last occurrence in
    the target header row, and holds no other key. *)
Lemma new_header_to_col_get (h : cell) (new_headers : list cell) :
  dict_get cell_eqb h (new_header_to_col new_headers)
  = if truthy h then last_index h new_headers else None.
Proof.
  unfold new_header_to_col, enumerate. rewrite fold_header_map. simpl.
  destruct (truthy h); [|reflexivity].
  now destruct (last_index h new_headers).
Qed.

Lemma new_col_indices_nth (base_headers new_headers : list cell)
      (i : nat) (h : cell) :
  nth_error base_headers i = Some h ->
  nth_error (new_col_indices base_headers new_headers) i
  = Some (if truthy h then last_index h new_headers else None).
Proof.
  intros H. unfold new_col_indices.
  rewrite nth_error_map, H. simpl. unfold dict_mem.
  rewrite new_header_to_col_get.
  destruct (truthy h); [|reflexivity].
  now destruct (last_index h new_headers).
Qed.

(* ================================================================= *)
(** ** Padding and trimming the metadata rows *)

Lemma setitem_rows_length (label v : cell) (m : DataFrame) :
  length (rows (setitem label v m)) = length (rows m).
Proof.
  unfold setitem. destruct (existsb _ _); simpl; apply length_map.
Qed.

Lemma setitem_old (label v : cell) (m : DataFrame) :
  In label (columns m) -> columns (setitem label v m) = columns m.
Proof.
  intros H. unfold setitem.
  replace (existsb (cell_eqb label) (columns m)) with true; [reflexivity|].
  symmetry. apply existsb_exists. exists label. split; [exact H|].
  apply cell_eqb_refl.
Qed.

Lemma setitem_new (label v : cell) (m : DataFrame) :
  ~ In label (columns m) ->
  setitem label v m
  = mkDF (columns m ++ [label]) (map (fun r => r ++ [v]) (rows m)).
Proof.
  intros H. unfold setitem.
  destruct (existsb (cell_eqb label) (columns m)) eqn:E; [|reflexivity].
  apply existsb_exists in E. destruct E as [x [Hx Ex]].
  apply cell_eqb_eq in Ex. subst x. contradiction.
Qed.

Lemma pad_fold_rows_length (l : list nat) :
  forall m, length (rows (fold_left pad_step l m)) = length (rows m).
Proof.
  induction l as [|i l IH]; intros m; simpl; [reflexivity|].
  rewrite IH. apply setitem_rows_length.
Qed.

Lemma pad_fold_columns_le (k : nat) :
  forall s m,
    length (columns (fold_left pad_step (seq s k) m))
    <= length (columns m) + k.
Proof.
  induction k as [|k IH]; intros s m; simpl; [lia|].
  etransitivity; [apply IH|]. unfold pad_step.
  destruct (in_dec cell_eq_dec (Num (Z.of_nat s)) (columns m)) as [Hi|Hn].
  - rewrite setitem_old by exact Hi. lia.
  - rewrite setitem_new by exact Hn. simpl. rewrite length_app. simpl. lia.
Qed.

(** When the loop really adds one column per turn, every row gains that
    many empty strings. *)
Lemma pad_fold_full (k : nat) :
  forall s m,
    length (columns (fold_left pad_step (seq s k) m))
    = length (columns m) + k ->
    rows (fold_left pad_step (seq s k) m)
    = map (fun r => r ++ repeat empty k) (rows m).
Proof.
  induction k as [|k IH]; intros s m H; simpl in *.
  - rewrite <- (map_id (rows m)) at 1. apply map_ext.
    intros r. now rewrite app_nil_r.
  - unfold pad_step at 2 in H. unfold pad_step at 2.
    destruct (in_dec cell_eq_dec (Num (Z.of_nat s)) (columns m)) as [Hi|Hn].
    + pose proof (pad_fold_columns_le k (S s)
                    (setitem (Num (Z.of_nat s)) empty m)) as Hle.
      rewrite setitem_old in Hle by exact Hi. lia.
    + rewrite setitem_new in * by exact Hn.
      rewrite IH.
      * simpl. rewrite map_map. apply map_ext. intros r.
        now rewrite <- app_assoc.
      * rewrite H. simpl. rewrite length_app. simpl. lia.
Qed.

Lemma pad_fold_fresh (k : nat) :
  forall s m,
    (forall i, s <= i < s + k -> ~ In (Num (Z.of_nat i)) (columns m)) ->
    length (columns (fold_left pad_step (seq s k) m))
    = length (columns m) + k.
Proof.
  induction k as [|k IH]; intros s m H; simpl; [lia|].
  unfold pad_step at 2. rewrite setitem_new by (apply H; lia).
  rewrite IH; simpl.
  - rewrite length_app. simpl. lia.
  - intros i Hi Hin. apply in_app_or in Hin. destruct Hin as [Hin|[Hin|[]]].
    + apply (H i); [lia|exact Hin].
    + injection Hin as Hin. lia.
Qed.

Lemma pad_fold_collision (k : nat) :
  forall s m,
    length (columns (fold_left pad_step (seq s k) m))
    = length (columns m) + k ->
    forall i, s <= i < s + k -> ~ In (Num (Z.of_nat i)) (columns m).
Proof.
  induction k as [|k IH]; intros s m H i Hi; simpl in *; [lia|].
  unfold pad_step at 2 in H.
  destruct (in_dec cell_eq_dec (Num (Z.of_nat s)) (columns m)) as [Hs|Hs].
  - pose proof (pad_fold_columns_le k (S s)
                  (setitem (Num (Z.of_nat s)) empty m)) as Hle.
    rewrite setitem_old in Hle by exact Hs. lia.
  - destruct (Nat.eq_dec i s) as [->|Hne]; [exact Hs|].
    rewrite setitem_new in H by exact Hs.
    intros Hin. refine (IH (S s) _ _ i _ _).
    + rewrite H. simpl. rewrite length_app. simpl. lia.
    + lia.
    + simpl. apply in_or_app. now left.
Qed.

Lemma fit_meta_rows_length (n : nat) (m : DataFrame) :
  length (rows (fit_meta_rows n m)) = length (rows m).
Proof.
  unfold fit_meta_rows, pad_columns.
  destruct (Nat.ltb (shape1 m) n).
  - apply (pad_fold_rows_length _ m).
  - destruct (Nat.ltb n (shape1 m)); simpl; [apply length_map|reflexivity].
Qed.

(** The assignment [meta_rows.columns = range(num_cols)] goes through
    exactly when no label collides with the integers of the padding. *)
Lemma fit_meta_rows_shape (n : nat) (m : DataFrame) :
  shape1 (fit_meta_rows n m) = n <-> labels_fresh m n.
Proof.
  unfold fit_meta_rows, pad_columns, labels_fresh, shape1.
  destruct (Nat.ltb (length (columns m)) n) eqn:E1.
  - apply Nat.ltb_lt in E1. split.
    + intros H i Hi.
      apply (pad_fold_collision (n - length (columns m))
               (length (columns m)) m); lia.
    + intros H.
      rewrite pad_fold_fresh; [lia|]. intros i Hi. apply H. lia.
  - apply Nat.ltb_ge in E1.
    destruct (Nat.ltb n (length (columns m))) eqn:E2.
    + apply Nat.ltb_lt in E2. simpl. rewrite length_firstn. split.
      * intros _ i Hi. lia.
      * lia.
    + apply Nat.ltb_ge in E2. split; [intros _ i Hi|]; lia.
Qed.

Lemma fit_meta_rows_rows (n : nat) (m : DataFrame) :
  wf_df m ->
  shape1 (fit_meta_rows n m) = n ->
  rows (fit_meta_rows n m) = map (fit_row n) (rows m).
Proof.
  unfold fit_meta_rows, pad_columns, wf_df, shape1, fit_row.
  intros Hwf.
  destruct (Nat.ltb (length (columns m)) n) eqn:E1.
  - apply Nat.ltb_lt in E1. intros H.
    rewrite pad_fold_full by lia.
    apply map_ext_Forall. revert Hwf. apply Forall_impl.
    intros r Hr. rewrite Hr.
    rewrite firstn_all2; [reflexivity|].
    rewrite length_app, repeat_length. lia.
  - apply Nat.ltb_ge in E1.
    destruct (Nat.ltb n (length (columns m))) eqn:E2; simpl; intros _.
    + apply map_ext_Forall. revert Hwf. apply Forall_impl.
      intros r Hr. replace (n - length r) with 0 by lia.
      simpl. now rewrite app_nil_r.
    + apply Nat.ltb_ge in E2. rewrite <- (map_id (rows m)) at 1.
      apply map_ext_Forall. revert Hwf. apply Forall_impl.
      intros r Hr. replace (n - length r) with 0 by lia.
      simpl. rewrite app_nil_r. rewrite firstn_all2; [reflexivity|lia].
Qed.

Lemma fit_row_length (n : nat) (r : list cell) :
  length (fit_row n r) = n.
Proof.
  unfold fit_row. rewrite length_firstn, length_app, repeat_length. lia.
Qed.


(* ================================================================= *)
(** ** The shape of [standardize_sheet]'s result *)

Lemma range_length (n : nat) : length (range n) = n.
Proof. unfold range. now rewrite length_map, length_seq. Qed.

Lemma long_enough (base_df new_df : DataFrame) :
  header_row < len base_df -> header_row < len new_df ->
  Nat.leb (len base_df) header_row || Nat.leb (len new_df) header_row
  = false.
Proof.
  intros Hb Hn. apply orb_false_iff. split; apply Nat.leb_gt; assumption.
Qed.

Lemma standardize_sheet_long (base_df new_df : DataFrame) :
  header_row < len base_df -> header_row < len new_df ->
  standardize_sheet base_df new_df
  = if Nat.eqb (length (base_headers_of base_df))
               (shape1 (fit_meta_rows (length (base_headers_of base_df))
                                      (iloc_rows_to header_row new_df)))
    then ([], Ok (mkDF (range (length (base_headers_of base_df)))
                       (assembled_rows base_df new_df)))
    else set_columns (range (length (base_headers_of base_df)))
                     (fit_meta_rows (length (base_headers_of base_df))
                                    (iloc_rows_to header_row new_df)).
Proof.
  intros Hb Hn. unfold standardize_sheet.
  rewrite (long_enough _ _ Hb Hn).
  set (n := length (base_headers_of base_df)).
  set (m := fit_meta_rows n (iloc_rows_to header_row new_df)).
  unfold set_columns at 1 3. rewrite range_length.
  destruct (Nat.eqb n (shape1 m)) eqn:E; [|reflexivity].
  unfold assembled_rows. fold n. fold m.
  cbv beta iota delta [bind ret concat iloc_rows_from rows columns].
  destruct (map _ _) as [|d ds] eqn:Ed;
    unfold set_columns, shape1; simpl; rewrite range_length, Nat.eqb_refl;
    unfold ret; simpl; rewrite ?app_nil_r; reflexivity.
Qed.

(** The function returns a sheet, silently, whenever the padding labels
    are fresh; otherwise the column assignment raises [ValueError]. *)
Lemma standardize_sheet_returns (base_df new_df : DataFrame) :
  header_row < len base_df -> header_row < len new_df ->
  labels_fresh new_df (length (base_headers_of base_df)) ->
  standardize_sheet base_df new_df
  = ([], Ok (mkDF (range (length (base_headers_of base_df)))
                  (assembled_rows base_df new_df))).
Proof.
  intros Hb Hn Hf. rewrite (standardize_sheet_long _ _ Hb Hn).
  replace (shape1 _) with (length (base_headers_of base_df)).
  - now rewrite Nat.eqb_refl.
  - symmetry. apply fit_meta_rows_shape. exact Hf.
Qed.

Lemma standardize_sheet_Ok (base_df new_df out : DataFrame) :
  header_row < len base_df -> header_row < len new_df ->
  outcome (standardize_sheet base_df new_df) = Ok out ->
  labels_fresh new_df (length (base_headers_of base_df)) /\
  out = mkDF (range (length (base_headers_of base_df)))
             (assembled_rows base_df new_df).
Proof.
  intros Hb Hn H. rewrite (standardize_sheet_long _ _ Hb Hn) in H.
  destruct (Nat.eqb _ _) eqn:E.
  - apply Nat.eqb_eq in E. simpl in H. injection H as <-.
    split; [|reflexivity].
    apply (fit_meta_rows_shape _ (iloc_rows_to header_row new_df)).
    now symmetry.
  - unfold set_columns in H. rewrite range_length, E in H. discriminate.
Qed.

Lemma meta_rows_length (base_df new_df : DataFrame) :
  header_row < len new_df ->
  length (rows (fit_meta_rows (length (base_headers_of base_df))
                              (iloc_rows_to header_row new_df)))
  = header_row.
Proof.
  intros Hn. rewrite fit_meta_rows_length.
  change (rows (iloc_rows_to header_row new_df))
    with (firstn header_row (rows new_df)).
  rewrite length_firstn. unfold len in Hn. lia.
Qed.


Lemma assembled_data (base_df new_df : DataFrame) (r : nat) :
  header_row < len new_df ->
  nth_error (assembled_rows base_df new_df) (S header_row + r)
  = option_map (remap_row (new_col_indices (base_headers_of base_df)
                                           (new_headers_of new_df)))
               (nth_error (rows new_df) (S header_row + r)).
Proof.
  intros Hn. unfold assembled_rows.
  rewrite nth_error_app2; rewrite (meta_rows_length base_df _ Hn); [|lia].
  replace (S header_row + r - header_row) with (S r) by lia.
  cbn [app nth_error]. rewrite nth_error_map, nth_error_skipn.
  now replace (header_row + 1 + r) with (S header_row + r) by lia.
Qed.


Lemma remap_row_nth (indices : list (option nat)) (row : list cell)
      (i : nat) (col_idx : option nat) :
  nth_error indices i = Some col_idx ->
  nth_error (remap_row indices row) i
  = Some (match col_idx with
          | Some j => if Nat.ltb j (length row) then nth j row empty
                      else empty
          | None => empty
          end).
Proof.
  intros H. unfold remap_row. now rewrite nth_error_map, H.
Qed.

Lemma string_labels_fresh (labels : list string) (rs : list (list cell))
      (n : nat) :
  labels_fresh (mkDF (map Str labels) rs) n.
Proof.
  intros i _ H. simpl in H. apply in_map_iff in H.
  destruct H as [s [Hs _]]. discriminate.
Qed.

Lemma sheet_len (labels : list string) (meta header : list cell)
      (data : list (list cell)) :
  header_row < len (sheet labels meta header data).
Proof.
  unfold len, sheet. cbn [rows].
  rewrite length_app, repeat_length. cbn [length]. lia.
Qed.

(* ================================================================= *)
(** ** Properties of [standardize_sheet] *)



(** C4.  For a base and a target sheet of at least 10 rows, at every
    standardized column position whose base label is absent from the
    target's row-9 headers, or whose matched target column index lies
    beyond the end of the data row, every output data row holds the
    empty string. *)
Theorem standardize_sheet_missing_label (base_df new_df : DataFrame) :
  header_row < len base_df ->
  header_row < len new_df ->
  (labels_fresh new_df (length (iloc_row header_row base_df)) ->
   exists out, standardize_sheet base_df new_df = ([], Ok out)) /\
  (forall out i h r out_row,
      outcome (standardize_sheet base_df new_df) = Ok out ->
      nth_error (base_headers_of base_df) i = Some h ->
      nth_error (rows out) (S header_row + r) = Some out_row ->
      (~ In h (new_headers_of new_df) \/
       exists j row,
         nth_error (new_col_indices (base_headers_of base_df)
                                    (new_headers_of new_df)) i
         = Some (Some j) /\
         nth_error (rows new_df) (S header_row + r) = Some row /\
         length row <= j) ->
      nth_error out_row i = Some empty).
Proof.
  intros Hb Hn. split.
  - intros Hf. eexists. apply standardize_sheet_returns; try assumption.
    unfold base_headers_of. now rewrite length_map.
  - intros out i h r out_row H Hi Hr Hcase.
    destruct (standardize_sheet_Ok _ _ _ Hb Hn H) as [_ ->].
    cbn [rows] in Hr. rewrite assembled_data in Hr by exact Hn.
    destruct (nth_error (rows new_df) (S header_row + r)) as [row|] eqn:Er;
      [|discriminate].
    injection Hr as <-.
    pose proof (new_col_indices_nth _ (new_headers_of new_df) _ _ Hi) as Hx.
    rewrite (remap_row_nth _ _ _ _ Hx).
    destruct Hcase as [Habs | [j [row' [Hj [Hrow' Hlen]]]]].
    + apply last_index_None in Habs. rewrite Habs.
      now destruct (truthy h).
    + rewrite Hj in Hx. injection Hx as <-.
      injection Hrow' as <-.
      replace (Nat.ltb j (length row)) with false; [reflexivity|].
      symmetry. apply Nat.ltb_ge. exact Hlen.
Qed.

Lemma standardize_sheet_missing_label_witness :
  header_row < len ex_base /\
  header_row < len ex_target /\
  exists out out_row,
    standardize_sheet ex_base ex_target = ([], Ok out) /\
    nth_error (base_headers_of ex_base) 2 = Some (Str "Status") /\
    ~ In (Str "Status") (new_headers_of ex_target) /\
    nth_error (rows out) 10 = Some out_row /\
    out_row = [Str "2024-01-01"; Str "Alice"; Str ""] /\
    nth_error out_row 2 = Some empty.
Proof.
  pose proof (sheet_len ["c0"; "c1"; "c2"] [Str "report"; NaN; NaN]
                [Str "Date"; Str "Name"; Str "Status"] []) as Hb.
  pose proof (sheet_len ["c0"; "c1"] [Str "report"; Str "v2"]
                [Str "Name"; Str "Date"]
                [[Str "Alice"; Str "2024-01-01"]]) as Hn.
  split; [exact Hb|]. split; [exact Hn|].
  destruct (standardize_sheet_missing_label ex_base ex_target Hb Hn)
    as [Hex Hcell].
  destruct (Hex (string_labels_fresh _ _ _)) as [out Hout].
  assert (Habs : ~ In (Str "Status") (new_headers_of ex_target)).
  { intros [H|[H|[]]]; discriminate. }
  assert (Hrow : nth_error (rows out) 10
                 = Some [Str "2024-01-01"; Str "Alice"; Str ""]).
  { vm_compute in Hout. injection Hout as <-. reflexivity. }
  exists out, [Str "2024-01-01"; Str "Alice"; Str ""].
  split; [exact Hout|]. split; [reflexivity|]. split; [exact Habs|].
  split; [exact Hrow|]. split; [reflexivity|].
  apply (Hcell out 2 (Str "Status") 0).
  - now rewrite Hout.
  - reflexivity.
  - exact Hrow.
  - left. exact Habs.
Defined.



(** C9.  At every standardized column position whose base row-9 label
    is the empty string, or was NaN, every output data row holds the
    empty string, also when the target has empty-labelled columns with
    data beneath them: the label-to-index map has no empty key. *)
Theorem standardize_sheet_empty_label (base_df new_df : DataFrame) :
  header_row < len base_df ->
  header_row < len new_df ->
  (labels_fresh new_df (length (iloc_row header_row base_df)) ->
   exists out, standardize_sheet base_df new_df = ([], Ok out)) /\
  dict_get cell_eqb empty (new_header_to_col (new_headers_of new_df))
  = None /\
  (forall out i c r out_row,
      outcome (standardize_sheet base_df new_df) = Ok out ->
      nth_error (iloc_row header_row base_df) i = Some c ->
      c = NaN \/ c = Str "" ->
      nth_error (rows out) (S header_row + r) = Some out_row ->
      nth_error out_row i = Some empty).
Proof.
  intros Hb Hn. split; [|split].
  - intros Hf. eexists. apply standardize_sheet_returns; try assumption.
    unfold base_headers_of. now rewrite length_map.
  - now rewrite new_header_to_col_get.
  - intros out i c r out_row H Hi Hc Hr.
    destruct (standardize_sheet_Ok _ _ _ Hb Hn H) as [_ ->].
    cbn [rows] in Hr. rewrite assembled_data in Hr by exact Hn.
    destruct (nth_error (rows new_df) (S header_row + r)) as [row|];
      [|discriminate].
    injection Hr as <-.
    assert (Hh : nth_error (base_headers_of base_df) i = Some empty).
    { unfold base_headers_of. rewrite nth_error_map, Hi.
      now destruct Hc as [-> | ->]. }
    now rewrite (remap_row_nth _ _ _ _
                   (new_col_indices_nth _ (new_headers_of new_df) _ _ Hh)).
Qed.


(** C6.  When the base sheet or the target sheet has 9 rows or fewer,
    [standardize_sheet] prints a warning and returns the target sheet as
    it received it. *)
Theorem standardize_sheet_short (base_df new_df : DataFrame) :
  len base_df <= header_row \/ len new_df <= header_row ->
  standardize_sheet base_df new_df
  = ([Stdout "WARNING: Not enough rows to standardize. Skipping sheet."],
     Ok new_df).
Proof.
  intros H. unfold standardize_sheet.
  replace (Nat.leb (len base_df) header_row
           || Nat.leb (len new_df) header_row) with true; [reflexivity|].
  symmetry. apply orb_true_iff.
  destruct H as [H|H]; [left|right]; now apply Nat.leb_le.
Qed.

Lemma sample_wf (labels : list string) (meta header : list cell)
      (data : list (list cell)) :
  length meta = length labels ->
  length header = length labels ->
  Forall (fun r => length r = length labels) data ->
  wf_df (sheet labels meta header data).
Proof.
  intros Hm Hh Hd. unfold wf_df, sheet. cbn [rows columns].
  rewrite length_map. apply Forall_app. split.
  - apply Forall_forall. intros x Hx. apply repeat_spec in Hx. now subst.
  - now constructor.
Qed.



Lemma standardize_sheet_empty_label_witness :
  header_row < len blank_base /\
  header_row < len blank_target /\
  exists out,
    standardize_sheet blank_base blank_target = ([], Ok out) /\
    nth_error (iloc_row header_row blank_base) 1 = Some NaN /\
    nth_error (iloc_row header_row blank_target) 1 = Some NaN /\
    nth_error (rows blank_target) 10 = Some [Str "Alice"; Str "note"] /\
    nth_error (rows out) 10 = Some [Str "Alice"; Str ""] /\
    nth_error [Str "Alice"; Str ""] 1 = Some empty.
Proof.
  assert (Hb : header_row < len blank_base) by apply sheet_len.
  assert (Hn : header_row < len blank_target) by apply sheet_len.
  split; [exact Hb|]. split; [exact Hn|].
  destruct (standardize_sheet_empty_label blank_base blank_target Hb Hn)
    as [Hex [_ Hcell]].
  destruct (Hex (string_labels_fresh _ _ _)) as [out Hout].
  assert (Hrow : nth_error (rows out) 10 = Some [Str "Alice"; Str ""]).
  { vm_compute in Hout. injection Hout as <-. reflexivity. }
  exists out. split; [exact Hout|]. split; [reflexivity|].
  split; [reflexivity|]. split; [reflexivity|]. split; [exact Hrow|].
  apply (Hcell out 1 NaN 0).
  - now rewrite Hout.
  - reflexivity.
  - now left.
  - exact Hrow.
Defined.


Lemma standardize_sheet_short_witness :
  (len ex_base <= header_row \/ len short_sheet <= header_row) /\
  standardize_sheet ex_base short_sheet
  = ([Stdout "WARNING: Not enough rows to standardize. Skipping sheet."],
     Ok short_sheet).
Proof.
  assert (H : len ex_base <= header_row \/ len short_sheet <= header_row).
  { right. unfold len, header_row. simpl. lia. }
  split; [exact H|]. exact (standardize_sheet_short ex_base short_sheet H).
Defined.

(* ================================================================= *)
(** ** Repeated labels *)

(** C2, amended.  When the target header row carries a non-empty label,
    possibly at several column indices, the single label-to-index map
    sends it to the last target column bearing it, and every occurrence
    of that label in the base header row gets that same column index. *)
Theorem lookup_last_match (base_headers new_headers : list cell)
        (h : cell) :
  truthy h = true ->
  In h new_headers ->
  exists j,
    nth_error new_headers j = Some h /\
    (forall k, j < k -> nth_error new_headers k <> Some h) /\
    dict_get cell_eqb h (new_header_to_col new_headers) = Some j /\
    (forall i, nth_error base_headers i = Some h ->
               nth_error (new_col_indices base_headers new_headers) i
               = Some (Some j)).
Proof.
  intros Ht Hin.
  destruct (last_index h new_headers) as [j|] eqn:Ej.
  2:{ apply last_index_None in Ej. contradiction. }
  destruct (last_index_Some _ _ _ Ej) as [Hj Hlast].
  exists j. split; [exact Hj|]. split; [exact Hlast|]. split.
  - now rewrite new_header_to_col_get, Ht.
  - intros i Hi.
    now rewrite (new_col_indices_nth _ new_headers _ _ Hi), Ht, Ej.
Qed.

Lemma lookup_last_match_witness :
  truthy (Str "A") = true /\
  In (Str "A") (new_headers_of dup_target) /\
  exists j,
    nth_error (new_headers_of dup_target) j = Some (Str "A") /\
    dict_get cell_eqb (Str "A")
             (new_header_to_col (new_headers_of dup_target)) = Some j /\
    nth_error (new_col_indices (base_headers_of dup_base)
                               (new_headers_of dup_target)) 0
    = Some (Some j) /\
    nth_error (new_col_indices (base_headers_of dup_base)
                               (new_headers_of dup_target)) 1
    = Some (Some j).
Proof.
  assert (Ht : truthy (Str "A") = true) by reflexivity.
  assert (Hin : In (Str "A") (new_headers_of dup_target))
    by (simpl; tauto).
  split; [exact Ht|]. split; [exact Hin|].
  destruct (lookup_last_match (base_headers_of dup_base)
              (new_headers_of dup_target) (Str "A") Ht Hin)
    as [j [Hj [_ [Hget Hall]]]].
  exists j. split; [exact Hj|]. split; [exact Hget|].
  split; apply Hall; reflexivity.
Defined.

(** On the sample with label "A" in target columns 0 and 2, both base
    occurrences of "A" read column 2. *)
Example dup_target_standardized :
  standardize_sheet dup_base dup_target
  = ([], Ok (mkDF (range 2)
                  (repeat [NaN; NaN] 9
                   ++ [[Str "A"; Str "A"]; [Str "last"; Str "last"]]))).
Proof. reflexivity. Qed.

(** C2 as worded fails: the first target column bearing "A" is column
    0, and the lookup gives column 2. *)
Lemma first_match_lookup_fails : ~ first_match_lookup.
Proof.
  intros H.
  specialize (H (base_headers_of dup_base) (new_headers_of dup_target)
                (Str "A") 0 0 eq_refl eq_refl eq_refl).
  discriminate.
Qed.

(* ================================================================= *)
(** ** [set_column_headers] *)

(** C8.  [set_column_headers] returns a sheet without columns as it is;
    otherwise the result has the title as the label of column 0 and the
    empty string as every other label, with the rows untouched.
    Applying it again with the same title gives the same result. *)
Theorem set_column_headers_spec (df : DataFrame) (title : string) :
  exists out,
    set_column_headers df title = ([], Ok out) /\
    rows out = rows df /\
    shape1 out = shape1 df /\
    (shape1 df = 0 -> out = df) /\
    (forall c, c < shape1 df ->
               nth_error (columns out) c
               = Some (if Nat.eqb c 0 then Str title else empty)) /\
    bind (set_column_headers df title)
         (fun once => set_column_headers once title)
    = set_column_headers df title.
Proof.
  unfold set_column_headers.
  destruct (Nat.eqb (shape1 df) 0) eqn:E.
  - apply Nat.eqb_eq in E. exists df.
    split; [reflexivity|]. split; [reflexivity|]. split; [reflexivity|].
    split; [reflexivity|]. split; [intros c Hc; lia|].
    unfold bind, ret. replace (Nat.eqb (shape1 df) 0) with true.
    + reflexivity.
    + symmetry. now apply Nat.eqb_eq.
  - apply Nat.eqb_neq in E.
    assert (Hl : length (Str title :: repeat empty (shape1 df - 1))
                 = shape1 df).
    { simpl. rewrite repeat_length. lia. }
    unfold set_columns. rewrite Hl, Nat.eqb_refl.
    exists (mkDF (Str title :: repeat empty (shape1 df - 1)) (rows df)).
    split; [reflexivity|]. split; [reflexivity|].
    split; [exact Hl|]. split; [intros H0; contradiction|]. split.
    + intros [|c] Hc; [reflexivity|]. cbn [columns nth_error Nat.eqb].
      apply nth_error_repeat. lia.
    + unfold bind, ret.
      assert (Hs : shape1 (mkDF (Str title :: repeat empty (shape1 df - 1))
                                (rows df)) = shape1 df) by exact Hl.
      rewrite !Hs.
      replace (Nat.eqb (shape1 df) 0) with false
        by (symmetry; now apply Nat.eqb_neq).
      now rewrite Hl, Nat.eqb_refl.
Qed.

(* ================================================================= *)
(** ** The monad *)

Lemma bind_ret_l {A B} (a : A) (f : A -> Py B) : bind ([], Ok a) f = f a.
Proof. unfold bind. now destruct (f a). Qed.

Lemma bind_assoc {A B C} (m : Py A) (f : A -> Py B) (g : B -> Py C) :
  bind (bind m f) g = bind m (fun a => bind (f a) g).
Proof.
  destruct m as [out [a|e]]; simpl; [|reflexivity].
  destruct (f a) as [out1 [b|e]]; simpl; [|reflexivity].
  destruct (g b) as [out2 r]. now rewrite app_assoc.
Qed.

Lemma bind_Ok {A B} (m : Py A) (f : A -> Py B) (out : list event) (b : B) :
  bind m f = (out, Ok b) ->
  exists a out1 out2,
    m = (out1, Ok a) /\ f a = (out2, Ok b) /\ out = out1 ++ out2.
Proof.
  destruct m as [out1 [a|e]]; simpl; [|discriminate].
  destruct (f a) as [out2 r] eqn:E. intros H. injection H as <- ->.
  now exists a, out1, out2.
Qed.

Lemma bind_Raise_l {A B} (m : Py A) (f : A -> Py B) (out : list event)
      (e : exn) :
  m = (out, Raise e) -> bind m f = (out, Raise e).
Proof. now intros ->. Qed.

Lemma bind_Ok_l {A B} (m : Py A) (f : A -> Py B) (out : list event)
      (a : A) :
  m = (out, Ok a) ->
  bind m f = (out ++ printed (f a), outcome (f a)).
Proof. intros ->. simpl. now destruct (f a). Qed.

Lemma only_prints_bind {A B} (m : Py A) (f : A -> Py B) :
  only_prints m -> (forall a, only_prints (f a)) ->
  only_prints (bind m f).
Proof.
  unfold only_prints. destruct m as [out [a|e]]; simpl; intros Hm Hf.
  - specialize (Hf a). destruct (f a) as [out' r]. simpl in *.
    now rewrite forallb_app, Hm, Hf.
  - exact Hm.
Qed.

Lemma only_prints_no_write {A} (m : Py A) (path : string) (wb : workbook) :
  only_prints m -> ~ In (ExcelWrite path wb) (printed m).
Proof.
  unfold only_prints. intros H Hin.
  rewrite forallb_forall in H. specialize (H _ Hin). discriminate.
Qed.

Lemma only_prints_print (line : string) : only_prints (print line).
Proof. reflexivity. Qed.

Lemma only_prints_ret {A} (a : A) : only_prints (ret a).
Proof. reflexivity. Qed.

Lemma only_prints_getitem {V} (k : string) (d : dict string V) :
  only_prints (getitem k d).
Proof. unfold getitem. now destruct (dict_get String.eqb k d). Qed.

Lemma only_prints_set_columns (labels : list cell) (df : DataFrame) :
  only_prints (set_columns labels df).
Proof. unfold set_columns. now destruct (Nat.eqb _ _). Qed.

Lemma only_prints_standardize_sheet (base_df new_df : DataFrame) :
  only_prints (standardize_sheet base_df new_df).
Proof.
  unfold standardize_sheet. destruct (_ || _); [reflexivity|].
  apply only_prints_bind; [apply only_prints_set_columns|].
  intros m. apply only_prints_set_columns.
Qed.

Lemma set_column_headers_eq (df : DataFrame) (title : string) :
  set_column_headers df title
  = ([], Ok (if Nat.eqb (shape1 df) 0 then df
             else mkDF (Str title :: repeat empty (shape1 df - 1))
                       (rows df))).
Proof.
  unfold set_column_headers.
  destruct (Nat.eqb (shape1 df) 0) eqn:E; [reflexivity|].
  apply Nat.eqb_neq in E. unfold set_columns. simpl length.
  rewrite repeat_length.
  replace (S (shape1 df - 1)) with (shape1 df) by lia.
  now rewrite Nat.eqb_refl.
Qed.

Lemma only_prints_permission_hints : only_prints permission_hints.
Proof. reflexivity. Qed.

Lemma only_prints_error_report (e : exn) : only_prints (error_report e).
Proof.
  unfold error_report.
  apply only_prints_bind; [apply only_prints_print|]. intros _.
  now destruct (contains _ _).
Qed.

Lemma error_report_returns (e : exn) : outcome (error_report e) = Ok tt.
Proof.
  unfold error_report, bind, print.
  now destruct (contains _ _).
Qed.

(* ================================================================= *)
(** ** The loop over the sheets *)

Ltac invert_bind H :=
  let a := fresh "a" in
  let o1 := fresh "out" in
  let o2 := fresh "out" in
  let H1 := fresh "Hm" in
  let H3 := fresh "Hout" in
  apply bind_Ok in H; destruct H as (a & o1 & o2 & H1 & H & H3).

Lemma only_prints_fetch (base_sheets new_sheets : workbook)
      (sheet_name : string) :
  only_prints
    (if String.eqb sheet_name "Doc info" || String.eqb sheet_name "Summary"
     then getitem sheet_name new_sheets
     else
       bind (getitem sheet_name base_sheets)
            (fun base_df =>
               bind (getitem sheet_name new_sheets)
                    (fun new_df => standardize_sheet base_df new_df))).
Proof.
  destruct (_ || _); [apply only_prints_getitem|].
  apply only_prints_bind; [apply only_prints_getitem|]. intros b.
  apply only_prints_bind; [apply only_prints_getitem|]. intros n.
  apply only_prints_standardize_sheet.
Qed.

Lemma only_prints_process_sheet (base_sheets new_sheets acc : workbook)
      (sheet_name : string) :
  only_prints (process_sheet base_sheets new_sheets acc sheet_name).
Proof.
  unfold process_sheet.
  apply only_prints_bind; [apply only_prints_fetch|]. intros sheet.
  apply only_prints_bind;
    [rewrite set_column_headers_eq; reflexivity|]. intros sheet'.
  repeat (apply only_prints_bind;
          [first [apply only_prints_print | apply only_prints_getitem]|];
          intros ?).
  apply only_prints_ret.
Qed.

Lemma process_sheet_Ok (base_sheets new_sheets acc acc' : workbook)
      (sheet_name : string) (out : list event) :
  process_sheet base_sheets new_sheets acc sheet_name = (out, Ok acc') ->
  exists sheet, acc' = dict_set String.eqb sheet_name sheet acc.
Proof.
  unfold process_sheet. intros H.
  do 9 invert_bind H.
  unfold ret in H. injection H as _ <-. eexists. reflexivity.
Qed.

(** A sheet name of the base that the target lacks: the lookup
    [new_sheets[sheet_name]] raises before anything is printed. *)
Lemma process_sheet_missing (base_sheets new_sheets acc : workbook)
      (sheet_name : string) :
  In sheet_name (dict_keys base_sheets) ->
  ~ In sheet_name (dict_keys new_sheets) ->
  process_sheet base_sheets new_sheets acc sheet_name
  = ([], Raise (KeyError sheet_name)).
Proof.
  intros Hb Hn. unfold process_sheet.
  apply bind_Raise_l.
  apply (dict_get_None _ _ String.eqb string_eqb_eq) in Hn.
  destruct (_ || _).
  - unfold getitem. now rewrite Hn.
  - unfold getitem at 1.
    destruct (dict_get String.eqb sheet_name base_sheets) as [b|] eqn:Eb.
    + unfold ret. rewrite bind_ret_l. apply bind_Raise_l.
      unfold getitem. now rewrite Hn.
    + apply (dict_get_None _ _ String.eqb string_eqb_eq) in Eb.
      contradiction.
Qed.

Lemma process_sheets_app (base_sheets new_sheets : workbook)
      (l1 l2 : list string) :
  forall acc,
    process_sheets base_sheets new_sheets (l1 ++ l2) acc
    = bind (process_sheets base_sheets new_sheets l1 acc)
           (fun acc' => process_sheets base_sheets new_sheets l2 acc').
Proof.
  induction l1 as [|x l1 IH]; intros acc; cbn [app process_sheets].
  - unfold ret. now rewrite bind_ret_l.
  - rewrite bind_assoc.
    destruct (process_sheet base_sheets new_sheets acc x) as [out [a|e]];
      [|reflexivity].
    unfold bind at 1 3. now rewrite IH.
Qed.

Lemma only_prints_process_sheets (base_sheets new_sheets : workbook)
      (names : list string) :
  forall acc,
    only_prints (process_sheets base_sheets new_sheets names acc).
Proof.
  induction names as [|x names IH]; intros acc; simpl.
  - reflexivity.
  - apply only_prints_bind; [apply only_prints_process_sheet|].
    intros a. apply IH.
Qed.

(** The dict built by the loop has the names it ran over as its keys,
    in the order of the loop. *)
Lemma process_sheets_keys (base_sheets new_sheets : workbook)
      (names : list string) :
  forall acc acc' out,
    NoDup names ->
    (forall x, In x names -> ~ In x (dict_keys acc)) ->
    process_sheets base_sheets new_sheets names acc = (out, Ok acc') ->
    dict_keys acc' = dict_keys acc ++ names.
Proof.
  induction names as [|x names IH]; intros acc acc' out Hnd Hfresh H;
    simpl in H.
  - unfold ret in H. injection H as _ <-. now rewrite app_nil_r.
  - invert_bind H. apply process_sheet_Ok in Hm.
    destruct Hm as [sheet ->].
    inversion Hnd as [|? ? Hx Hnd']; subst.
    assert (Hk : dict_keys (dict_set String.eqb x sheet acc)
                 = dict_keys acc ++ [x]).
    { apply (dict_keys_set_new _ _ String.eqb string_eqb_eq).
      apply Hfresh. now left. }
    assert (Hfresh' : forall y, In y names ->
              ~ In y (dict_keys (dict_set String.eqb x sheet acc))).
    { intros y Hy. rewrite Hk. intros Hin.
      apply in_app_or in Hin. destruct Hin as [Hin|[->|[]]].
      - apply (Hfresh y); [now right|exact Hin].
      - contradiction. }
    rewrite (IH _ _ _ Hnd' Hfresh' H), Hk, <- app_assoc. reflexivity.
Qed.

(* ================================================================= *)
(** ** Properties of [standardize_data] *)

Lemma printed_read_file (w : world) (file_path : string) :
  printed (read_file w file_path) = [].
Proof.
  unfold read_file, lift, raise.
  destruct (String.eqb _ ".csv").
  - now destruct (pd_read_csv w file_path).
  - now destruct (String.eqb _ ".xlsx").
Qed.

Lemma read_file_Ok (w : world) (file_path : string) (sheets : workbook) :
  outcome (read_file w file_path) = Ok sheets ->
  read_file w file_path = ([], Ok sheets).
Proof.
  intros H. pose proof (printed_read_file w file_path) as Hp.
  destruct (read_file w file_path) as [out r]. simpl in *. now subst.
Qed.

Lemma standardize_data_reads (w : world) (base_file new_file : string)
      (base_sheets new_sheets : workbook) :
  read_file w base_file = ([], Ok base_sheets) ->
  read_file w new_file = ([], Ok new_sheets) ->
  standardize_data w base_file new_file
  = try_except
      (bind (process_sheets base_sheets new_sheets
                            (dict_keys base_sheets) [])
            (fun standardized_sheets =>
               save_step w standardized_sheets new_file))
      (fun _ => true) error_report.
Proof.
  intros Hb Hn. unfold standardize_data.
  now rewrite Hb, bind_ret_l, Hn, bind_ret_l.
Qed.

Lemma try_except_all {A} (m : Py A) (h : exn -> Py A) :
  try_except m (fun _ => true) h
  = match m with
    | (out, Raise e) => (out ++ printed (h e), outcome (h e))
    | ok => ok
    end.
Proof.
  destruct m as [out [a|e]]; simpl; [reflexivity|]. now destruct (h e).
Qed.

Lemma save_step_writes (w : world) (standardized_sheets wb : workbook)
      (new_file path : string) :
  In (ExcelWrite path wb)
     (printed (save_step w standardized_sheets new_file)) ->
  path = new_file /\ wb = standardized_sheets.
Proof.
  unfold save_step, save_file.
  destruct (String.eqb _ ".xlsx").
  - destruct (excel_writer w new_file standardized_sheets) as [[]|e].
    + simpl. intros [H|[H|[H|[]]]]; try discriminate.
      injection H as <- <-. now split.
    + cbn [bind try_except].
      destruct (is_PermissionError e).
      * pose proof (only_prints_no_write (save_failure_report new_file)
                      path wb eq_refl) as Hno.
        destruct (save_failure_report new_file) as [out' r].
        cbn [printed fst] in *. intros H. apply in_app_or in H.
        destruct H as [[H|[]]|H]; [|contradiction].
        injection H as <- <-. now split.
      * simpl. intros [H|[]]. injection H as <- <-. now split.
  - simpl. tauto.
Qed.

Lemma quiet_on_bind {A B} (ev : event) (m : Py A) (f : A -> Py B) :
  quiet_on ev m -> (forall a, quiet_on ev (f a)) ->
  quiet_on ev (bind m f).
Proof.
  unfold quiet_on. destruct m as [out [a|e]]; simpl; intros Hm Hf.
  - specialize (Hf a). destruct (f a) as [out' r]. simpl in *.
    intros Hin. apply in_app_or in Hin. tauto.
  - exact Hm.
Qed.

Lemma quiet_on_getitem {V} (ev : event) (k : string) (d : dict string V) :
  quiet_on ev (getitem k d).
Proof.
  unfold quiet_on, getitem.
  destruct (dict_get String.eqb k d); simpl; tauto.
Qed.

Lemma quiet_on_print (ev : event) (line : string) :
  ev <> Stdout line -> quiet_on ev (print line).
Proof. unfold quiet_on. simpl. intros H [Hin|[]]. now symmetry in Hin. Qed.

Lemma quiet_on_outcome {A} (ev : event) (r : result A) :
  quiet_on ev (([], r) : Py A).
Proof. unfold quiet_on. simpl. tauto. Qed.

Lemma processing_line_inj (a b : string) :
  processing_line a = processing_line b -> a = b.
Proof. unfold processing_line. simpl. intros H. now injection H. Qed.

Lemma quiet_on_standardize_sheet (name : string)
      (base_df new_df : DataFrame) :
  quiet_on (processing_line name) (standardize_sheet base_df new_df).
Proof.
  unfold standardize_sheet. destruct (_ || _).
  - unfold quiet_on. simpl. intros [H|[]]. discriminate.
  - apply quiet_on_bind; [|intros m]; unfold set_columns;
      destruct (Nat.eqb _ _); apply quiet_on_outcome.
Qed.

(** Processing one sheet never prints the announcement of another. *)
Lemma quiet_on_process_sheet (base_sheets new_sheets acc : workbook)
      (name sheet_name : string) :
  name <> sheet_name ->
  quiet_on (processing_line name)
           (process_sheet base_sheets new_sheets acc sheet_name).
Proof.
  intros Hne. unfold process_sheet.
  apply quiet_on_bind.
  { destruct (_ || _); [apply quiet_on_getitem|].
    apply quiet_on_bind; [apply quiet_on_getitem|]. intros b.
    apply quiet_on_bind; [apply quiet_on_getitem|]. intros n.
    apply quiet_on_standardize_sheet. }
  intros sheet. apply quiet_on_bind.
  { rewrite set_column_headers_eq. apply quiet_on_outcome. }
  intros sheet'. apply quiet_on_bind.
  { apply quiet_on_print. intros H.
    apply (processing_line_inj name sheet_name) in H. contradiction. }
  intros _.
  repeat (apply quiet_on_bind;
          [first [apply quiet_on_getitem
                 | apply quiet_on_print; unfold processing_line; simpl;
                   discriminate]|];
          intros ?).
  apply quiet_on_outcome.
Qed.

Lemma quiet_on_process_sheets (base_sheets new_sheets : workbook)
      (name : string) (names : list string) :
  ~ In name names ->
  forall acc,
    quiet_on (processing_line name)
             (process_sheets base_sheets new_sheets names acc).
Proof.
  induction names as [|x names IH]; intros Hn acc; simpl.
  - apply quiet_on_outcome.
  - apply quiet_on_bind.
    + apply quiet_on_process_sheet. intros ->. apply Hn. now left.
    + intros a. apply IH. intros H. apply Hn. now right.
Qed.

Lemma quiet_on_error_report (name : string) (e : exn) :
  quiet_on (processing_line name) (error_report e).
Proof.
  unfold error_report. apply quiet_on_bind.
  - apply quiet_on_print. unfold processing_line. simpl. discriminate.
  - intros _. destruct (contains _ _); [|apply quiet_on_outcome].
    unfold quiet_on, processing_line. simpl.
    intros [H|[H|[H|[H|[H|[]]]]]]; discriminate.
Qed.

(** C3, amended.  In [standardize_data] an exception raised while one
    sheet is processed, in particular the [KeyError] raised when the
    target workbook lacks a sheet bearing one of the base workbook's
    sheet names, is not handled per sheet.  It ends the loop: what has
    been printed so far is followed by the report of the single outer
    handler, no later sheet is processed, nothing is written, and the
    function returns normally. *)
Theorem standardize_data_sheet_error
        (w : world) (base_file new_file : string)
        (base_sheets new_sheets acc : workbook)
        (pre post : list string) (sheet_name : string)
        (out_pre : list event) :
  read_file w base_file = ([], Ok base_sheets) ->
  read_file w new_file = ([], Ok new_sheets) ->
  NoDup (dict_keys base_sheets) ->
  dict_keys base_sheets = pre ++ sheet_name :: post ->
  process_sheets base_sheets new_sheets pre [] = (out_pre, Ok acc) ->
  (~ In sheet_name (dict_keys new_sheets) \/
   exists out e,
     process_sheet base_sheets new_sheets acc sheet_name
     = (out, Raise e)) ->
  exists out_sheet e,
    process_sheet base_sheets new_sheets acc sheet_name
    = (out_sheet, Raise e) /\
    (~ In sheet_name (dict_keys new_sheets) ->
     e = KeyError sheet_name /\ out_sheet = []) /\
    standardize_data w base_file new_file
    = (out_pre ++ out_sheet ++ printed (error_report e), Ok tt) /\
    (forall later,
        In later post ->
        ~ In (processing_line later)
             (printed (standardize_data w base_file new_file))) /\
    (forall path wb,
        ~ In (ExcelWrite path wb)
             (printed (standardize_data w base_file new_file))).
Proof.
  intros Hb Hn Hnd Hkeys Hpre Hcase.
  assert (Hmissing : ~ In sheet_name (dict_keys new_sheets) ->
            process_sheet base_sheets new_sheets acc sheet_name
            = ([], Raise (KeyError sheet_name))).
  { intros Hmiss. apply process_sheet_missing; [|exact Hmiss].
    unfold workbook in *. rewrite Hkeys. apply in_or_app. right. now left. }
  assert (Hraise : exists out e,
             process_sheet base_sheets new_sheets acc sheet_name
             = (out, Raise e)).
  { destruct Hcase as [Hmiss|Hr]; [|exact Hr].
    exists [], (KeyError sheet_name). now apply Hmissing. }
  destruct Hraise as [out_sheet [e Hsheet]].
  exists out_sheet, e. split; [exact Hsheet|]. split.
  { intros Hmiss. rewrite (Hmissing Hmiss) in Hsheet.
    injection Hsheet as <- <-. now split. }
  assert (Heq : standardize_data w base_file new_file
                = (out_pre ++ out_sheet ++ printed (error_report e), Ok tt)).
  { rewrite (standardize_data_reads _ _ _ _ _ Hb Hn), Hkeys.
    rewrite process_sheets_app, (bind_Ok_l _ _ _ _ Hpre).
    cbn [process_sheets]. rewrite (bind_Raise_l _ _ _ _ Hsheet).
    cbn [printed outcome fst snd bind]. rewrite try_except_all.
    now rewrite error_report_returns, app_assoc. }
  split; [exact Heq|]. split.
  - intros later Hlater. rewrite Heq. cbn [printed fst]. intros Hin.
    unfold workbook in *. rewrite Hkeys in Hnd.
    pose proof (NoDup_remove_2 _ _ _ Hnd) as Hname.
    apply NoDup_remove_1 in Hnd.
    assert (Hpre_no : ~ In later pre).
    { intros Hp. revert Hnd Hp Hlater. clear.
      induction pre as [|x pre IH]; simpl; intros Hnd Hp Hl; [tauto|].
      inversion Hnd as [|? ? Hx Hnd']; subst.
      destruct Hp as [->|Hp].
      - apply Hx. apply in_or_app. now right.
      - now apply IH. }
    assert (Hne : later <> sheet_name).
    { intros ->. apply Hname. apply in_or_app. now right. }
    apply in_app_or in Hin. destruct Hin as [Hin|Hin].
    + pose proof (quiet_on_process_sheets base_sheets new_sheets later pre
                    Hpre_no []) as Hq.
      rewrite Hpre in Hq. now apply Hq.
    + apply in_app_or in Hin. destruct Hin as [Hin|Hin].
      * pose proof (quiet_on_process_sheet base_sheets new_sheets acc
                      later sheet_name Hne) as Hq.
        rewrite Hsheet in Hq. now apply Hq.
      * now apply (quiet_on_error_report later e).
  - intros path wb. rewrite Heq. cbn [printed fst]. intros Hin.
    apply in_app_or in Hin. destruct Hin as [Hin|Hin].
    + pose proof (only_prints_process_sheets base_sheets new_sheets pre [])
        as Hp.
      rewrite Hpre in Hp.
      now apply (only_prints_no_write (out_pre, Ok acc) path wb Hp).
    + apply in_app_or in Hin. destruct Hin as [Hin|Hin].
      * pose proof (only_prints_process_sheet base_sheets new_sheets acc
                      sheet_name) as Hp.
        rewrite Hsheet in Hp.
        now apply (only_prints_no_write
                     (out_sheet, @Raise workbook e) path wb Hp).
      * now apply (only_prints_no_write (error_report e) path wb
                     (only_prints_error_report e)).
Qed.

(** C10.  Whenever [standardize_data] reaches the write step, the
    workbook handed to the writer goes to the path of the new file and
    has exactly the sheet names of the base workbook, in the base
    workbook's order; a name present only in the target workbook is not
    among them. *)
Theorem written_sheet_names
        (w : world) (base_file new_file path : string)
        (base_sheets wb : workbook) :
  outcome (read_file w base_file) = Ok base_sheets ->
  NoDup (dict_keys base_sheets) ->
  In (ExcelWrite path wb)
     (printed (standardize_data w base_file new_file)) ->
  path = new_file /\
  dict_keys wb = dict_keys base_sheets /\
  (forall name, ~ In name (dict_keys base_sheets) ->
                ~ In name (dict_keys wb)).
Proof.
  intros Hb Hnd Hin. apply read_file_Ok in Hb.
  assert (Hgoal : path = new_file /\ dict_keys wb = dict_keys base_sheets).
  2:{ destruct Hgoal as [Hp Hk]. split; [exact Hp|]. split; [exact Hk|].
      intros name Hname. now rewrite Hk. }
  pose proof (printed_read_file w new_file) as Hpn.
  destruct (read_file w new_file) as [outn [new_sheets|e]] eqn:Hn;
    cbn [printed fst] in Hpn; subst outn.
  - rewrite (standardize_data_reads _ _ _ _ _ Hb Hn) in Hin.
    rewrite try_except_all in Hin.
    pose proof (only_prints_process_sheets base_sheets new_sheets
                  (dict_keys base_sheets) []) as Hp.
    destruct (process_sheets base_sheets new_sheets
                (dict_keys base_sheets) []) as [out [ss|e]] eqn:Hloop.
    + apply process_sheets_keys in Hloop; [|exact Hnd|intros x _ []].
      cbn [dict_keys map app] in Hloop.
      assert (Hs : In (ExcelWrite path wb)
                      (printed (save_step w ss new_file))).
      { cbn [bind] in Hin.
        destruct (save_step w ss new_file) as [out' [[]|e]];
          cbn [printed fst] in *.
        - apply in_app_or in Hin. destruct Hin as [Hin|Hin]; [|exact Hin].
          now apply (only_prints_no_write (out, Ok ss) path wb Hp) in Hin.
        - apply in_app_or in Hin. destruct Hin as [Hin|Hin].
          + apply in_app_or in Hin. destruct Hin as [Hin|Hin]; [|exact Hin].
            now apply (only_prints_no_write (out, Ok ss) path wb Hp) in Hin.
          + now apply (only_prints_no_write (error_report e) path wb
                         (only_prints_error_report e)) in Hin. }
      apply save_step_writes in Hs. destruct Hs as [-> ->].
      split; [reflexivity|exact Hloop].
    + cbn [bind printed fst] in Hin.
      apply in_app_or in Hin. destruct Hin as [Hin|Hin].
      * now apply (only_prints_no_write (out, @Raise workbook e) path wb Hp)
          in Hin.
      * now apply (only_prints_no_write (error_report e) path wb
                     (only_prints_error_report e)) in Hin.
  - unfold standardize_data in Hin. rewrite Hb, bind_ret_l, Hn in Hin.
    cbn [bind] in Hin. rewrite try_except_all in Hin.
    cbn [printed fst app] in Hin.
    now apply (only_prints_no_write (error_report e) path wb
                 (only_prints_error_report e)) in Hin.
Qed.

Ltac distinct_names :=
  repeat (constructor; [simpl; intuition discriminate|]); constructor.

Lemma standardize_data_sheet_error_witness :
  let pre_loop := process_sheets base_book new_book ["Doc info"] [] in
  read_file sample_world "base.xlsx" = ([], Ok base_book) /\
  read_file sample_world "new.xlsx" = ([], Ok new_book) /\
  NoDup (dict_keys base_book) /\
  dict_keys base_book = ["Doc info"] ++ "A" :: ["B"] /\
  (exists acc, pre_loop = (printed pre_loop, Ok acc)) /\
  ~ In "A" (dict_keys new_book) /\
  standardize_data sample_world "base.xlsx" "new.xlsx"
  = (printed pre_loop ++ [Stdout "An error occurred: 'A'"], Ok tt) /\
  ~ In (processing_line "B")
       (printed (standardize_data sample_world "base.xlsx" "new.xlsx")) /\
  (forall path wb,
      ~ In (ExcelWrite path wb)
           (printed (standardize_data sample_world "base.xlsx"
                                      "new.xlsx"))).
Proof.
  intros pre_loop.
  assert (Hb : read_file sample_world "base.xlsx" = ([], Ok base_book))
    by reflexivity.
  assert (Hn : read_file sample_world "new.xlsx" = ([], Ok new_book))
    by reflexivity.
  assert (Hnd : NoDup (dict_keys base_book)) by distinct_names.
  assert (Hk : dict_keys base_book = ["Doc info"] ++ "A" :: ["B"])
    by reflexivity.
  assert (Hmiss : ~ In "A" (dict_keys new_book))
    by (simpl; intuition discriminate).
  pose (acc := match outcome pre_loop with
               | Ok a => a
               | Raise _ => []
               end).
  assert (Hpre : pre_loop = (printed pre_loop, Ok acc)) by reflexivity.
  destruct (standardize_data_sheet_error
              sample_world "base.xlsx" "new.xlsx" base_book new_book acc
              ["Doc info"] ["B"] "A" (printed pre_loop)
              Hb Hn Hnd Hk Hpre (or_introl Hmiss))
    as [out_sheet [e [_ [Hkey [Heq [Hlater Hno]]]]]].
  destruct (Hkey Hmiss) as [-> ->].
  split; [exact Hb|]. split; [exact Hn|]. split; [exact Hnd|].
  split; [exact Hk|]. split; [now exists acc|]. split; [exact Hmiss|].
  split; [exact Heq|]. split; [|exact Hno].
  apply Hlater. now left.
Defined.

(** C3 as worded fails: the target lacks sheet "A", and sheet "B",
    present in both workbooks, is never processed. *)
Lemma missing_sheet_skipped_fails : ~ missing_sheet_skipped.
Proof.
  intros H.
  specialize (H sample_world "base.xlsx" "new.xlsx" base_book new_book
                "A" "B" eq_refl eq_refl).
  assert (Hin : In (processing_line "B")
                   (printed (standardize_data sample_world "base.xlsx"
                                              "new.xlsx"))).
  { apply H.
    - distinct_names.
    - simpl. tauto.
    - simpl. intuition discriminate.
    - simpl. tauto.
    - simpl. tauto. }
  vm_compute in Hin.
  repeat (destruct Hin as [Hin|Hin]; [discriminate|]).
  exact Hin.
Qed.

Lemma written_sheet_names_witness :
  outcome (read_file sample_world "base.xlsx") = Ok base_book /\
  NoDup (dict_keys base_book) /\
  dict_keys full_book = ["Z"; "B"; "A"; "Doc info"] /\
  exists wb,
    In (ExcelWrite "full.xlsx" wb)
       (printed (standardize_data sample_world "base.xlsx" "full.xlsx")) /\
    dict_keys wb = ["Doc info"; "A"; "B"] /\
    ~ In "Z" (dict_keys wb).
Proof.
  assert (Hb : outcome (read_file sample_world "base.xlsx") = Ok base_book)
    by reflexivity.
  assert (Hnd : NoDup (dict_keys base_book)) by distinct_names.
  split; [exact Hb|]. split; [exact Hnd|]. split; [reflexivity|].
  assert (Hw : exists wb,
             nth_error (printed (standardize_data sample_world "base.xlsx"
                                                  "full.xlsx")) 12
             = Some (ExcelWrite "full.xlsx" wb)).
  { eexists. cbv. reflexivity. }
  destruct Hw as [wb Hw]. apply nth_error_In in Hw.
  destruct (written_sheet_names sample_world "base.xlsx" "full.xlsx"
              "full.xlsx" base_book wb Hb Hnd Hw) as [_ [Hk Hdrop]].
  exists wb. split; [exact Hw|]. split; [exact Hk|].
  apply Hdrop. simpl. intuition discriminate.
Defined.

Lemma set_column_headers_spec_witness :
  exists out,
    set_column_headers ex_target report_title = ([], Ok out) /\
    rows out = rows ex_target /\
    columns out = [Str report_title; Str ""] /\
    set_column_headers out report_title = ([], Ok out).
Proof.
  destruct (set_column_headers_spec ex_target report_title)
    as [out [Hout [Hrows [Hshape [_ [Hcols Hidem]]]]]].
  exists out. split; [exact Hout|]. split; [exact Hrows|]. split.
  - assert (Hw : shape1 ex_target = 2) by reflexivity.
    pose proof (Hcols 0 ltac:(rewrite Hw; lia)) as H0.
    pose proof (Hcols 1 ltac:(rewrite Hw; lia)) as H1.
    rewrite Hw in Hshape.
    unfold shape1 in Hshape.
    destruct (columns out) as [|c0 [|c1 [|c2 cs]]]; try discriminate.
    simpl in H0, H1. now injection H0 as ->; injection H1 as ->.
  - rewrite Hout in Hidem. now rewrite bind_ret_l in Hidem.
Defined.

(** The padding loop assigns to the integer labels it counts through.
    On a target that already has a column labelled with one of them the
    assignment overwrites that column, the frame stays too narrow and
    the column assignment raises. *)
Example numbered_target_raises :
  standardize_sheet ex_base numbered_target
  = ([], Raise (ValueError
       "Length mismatch: Expected axis has 2 elements, new values have 3 elements")).
Proof. reflexivity. Qed.

(* ================================================================= *)
(** ** More on [standardize_sheet] *)

Lemma base_headers_length (base_df : DataFrame) :
  length (base_headers_of base_df) = length (iloc_row header_row base_df).
Proof. unfold base_headers_of. apply length_map. Qed.

Lemma remap_row_length (indices : list (option nat)) (row : list cell) :
  length (remap_row indices row) = length indices.
Proof. unfold remap_row. apply length_map. Qed.

Lemma new_col_indices_length (base_headers new_headers : list cell) :
  length (new_col_indices base_headers new_headers) = length base_headers.
Proof. unfold new_col_indices. apply length_map. Qed.

Lemma assembled_length (base_df new_df : DataFrame) :
  header_row < len new_df ->
  length (assembled_rows base_df new_df) = length (rows new_df).
Proof.
  intros Hn. unfold assembled_rows.
  rewrite !length_app, (meta_rows_length base_df _ Hn), length_map,
    length_skipn.
  unfold len in Hn. cbn [length]. lia.
Qed.

(** X1.  On sheets of at least 10 rows [standardize_sheet] prints
    nothing.  It returns a sheet when no column label of the target is
    one of the integers the padding loop assigns; otherwise the target
    is narrower than the base header row and the function raises
    [ValueError]. *)
Theorem standardize_sheet_returns_or_raises (base_df new_df : DataFrame) :
  header_row < len base_df ->
  header_row < len new_df ->
  (labels_fresh new_df (length (iloc_row header_row base_df)) /\
   exists out, standardize_sheet base_df new_df = ([], Ok out)) \/
  (~ labels_fresh new_df (length (iloc_row header_row base_df)) /\
   shape1 new_df < length (iloc_row header_row base_df) /\
   exists msg,
     standardize_sheet base_df new_df = ([], Raise (ValueError msg))).
Proof.
  intros Hb Hn. rewrite <- base_headers_length.
  rewrite (standardize_sheet_long _ _ Hb Hn).
  destruct (Nat.eqb _ _) eqn:E.
  - left. apply Nat.eqb_eq in E. split; [|eexists; reflexivity].
    apply (fit_meta_rows_shape _ (iloc_rows_to header_row new_df)).
    now symmetry.
  - right. apply Nat.eqb_neq in E.
    assert (Hnf : ~ labels_fresh new_df (length (base_headers_of base_df))).
    { intros Hf. apply E. symmetry.
      now apply (fit_meta_rows_shape _ (iloc_rows_to header_row new_df)). }
    split; [exact Hnf|]. split.
    + destruct (Nat.lt_ge_cases (shape1 new_df)
                  (length (base_headers_of base_df))) as [Hlt|Hge];
        [exact Hlt|].
      exfalso. apply Hnf. intros i Hi. lia.
    + unfold set_columns. rewrite range_length.
      replace (Nat.eqb _ _) with false; [eexists; reflexivity|].
      symmetry. now apply Nat.eqb_neq.
Qed.

Lemma standardize_sheet_returns_or_raises_witness :
  header_row < len ex_base /\
  header_row < len numbered_target /\
  ~ labels_fresh numbered_target 3 /\
  exists msg,
    standardize_sheet ex_base numbered_target
    = ([], Raise (ValueError msg)).
Proof.
  assert (Hb : header_row < len ex_base) by apply sheet_len.
  assert (Hn : header_row < len numbered_target).
  { unfold len, header_row. simpl. lia. }
  split; [exact Hb|]. split; [exact Hn|].
  destruct (standardize_sheet_returns_or_raises ex_base numbered_target
              Hb Hn) as [[_ [out Hout]]|[Hnf [_ Hmsg]]].
  - discriminate Hout.
  - split; [exact Hnf|exact Hmsg].
Defined.

(** X2.  The sheet [standardize_sheet] returns for inputs of at least
    10 rows has as many rows as the target sheet, and its column labels
    are the integers 0, 1, ... up to the width of the base header
    row. *)
Theorem standardize_sheet_row_count (base_df new_df out : DataFrame) :
  header_row < len base_df ->
  header_row < len new_df ->
  outcome (standardize_sheet base_df new_df) = Ok out ->
  len out = len new_df /\
  columns out = range (length (iloc_row header_row base_df)).
Proof.
  intros Hb Hn H.
  destruct (standardize_sheet_Ok _ _ _ Hb Hn H) as [_ ->].
  unfold len. cbn [rows columns]. rewrite base_headers_length.
  split; [now apply assembled_length|reflexivity].
Qed.

Lemma standardize_sheet_row_count_witness :
  header_row < len ex_base /\
  header_row < len wide_target /\
  exists out,
    outcome (standardize_sheet ex_base wide_target) = Ok out /\
    len out = 12 /\
    columns out = [Num 0; Num 1; Num 2].
Proof.
  assert (Hb : header_row < len ex_base) by apply sheet_len.
  assert (Hn : header_row < len wide_target) by apply sheet_len.
  split; [exact Hb|]. split; [exact Hn|].
  assert (Hex : exists out,
             outcome (standardize_sheet ex_base wide_target) = Ok out).
  { eexists. reflexivity. }
  destruct Hex as [out Hout]. exists out. split; [exact Hout|].
  exact (standardize_sheet_row_count ex_base wide_target out Hb Hn Hout).
Defined.

Lemma assembled_rows_width (base_df new_df : DataFrame) :
  wf_df new_df ->
  header_row < len new_df ->
  labels_fresh new_df (length (base_headers_of base_df)) ->
  Forall (fun r => length r = length (base_headers_of base_df))
         (assembled_rows base_df new_df).
Proof.
  intros Hwf Hn Hf. unfold assembled_rows.
  apply Forall_app. split; [|apply Forall_app; split].
  - rewrite fit_meta_rows_rows.
    + apply Forall_forall. intros r Hr. apply in_map_iff in Hr.
      destruct Hr as [x [<- _]]. apply fit_row_length.
    + unfold wf_df in *. simpl. apply Forall_forall. intros x Hx.
      rewrite Forall_forall in Hwf. apply Hwf.
      rewrite <- (firstn_skipn header_row (rows new_df)).
      apply in_or_app. now left.
    + apply fit_meta_rows_shape. exact Hf.
  - now constructor.
  - apply Forall_forall. intros r Hr. apply in_map_iff in Hr.
    destruct Hr as [x [<- _]].
    now rewrite remap_row_length, new_col_indices_length.
Qed.

(** X3.  For a rectangular target of at least 10 rows, the sheet
    [standardize_sheet] returns is rectangular again: every row,
    metadata, header or data, has exactly as many cells as the base
    header row. *)
Theorem standardize_sheet_rectangular (base_df new_df out : DataFrame) :
  header_row < len base_df ->
  header_row < len new_df ->
  wf_df new_df ->
  outcome (standardize_sheet base_df new_df) = Ok out ->
  wf_df out /\
  shape1 out = length (iloc_row header_row base_df).
Proof.
  intros Hb Hn Hwf H.
  destruct (standardize_sheet_Ok _ _ _ Hb Hn H) as [Hf ->].
  unfold wf_df, shape1. cbn [rows columns].
  rewrite range_length, <- base_headers_length.
  split; [now apply assembled_rows_width|reflexivity].
Qed.

Lemma standardize_sheet_rectangular_witness :
  header_row < len ex_base /\
  header_row < len ex_target /\
  wf_df ex_target /\
  exists out,
    outcome (standardize_sheet ex_base ex_target) = Ok out /\
    wf_df out /\ shape1 out = 3.
Proof.
  assert (Hb : header_row < len ex_base) by apply sheet_len.
  assert (Hn : header_row < len ex_target) by apply sheet_len.
  assert (Hwf : wf_df ex_target).
  { apply sample_wf; [reflexivity|reflexivity|repeat constructor]. }
  split; [exact Hb|]. split; [exact Hn|]. split; [exact Hwf|].
  assert (Hex : exists out,
             outcome (standardize_sheet ex_base ex_target) = Ok out).
  { eexists. reflexivity. }
  destruct Hex as [out Hout]. exists out. split; [exact Hout|].
  exact (standardize_sheet_rectangular ex_base ex_target out
           Hb Hn Hwf Hout).
Defined.

Lemma remap_row_In (indices : list (option nat)) (row : list cell)
      (v : cell) :
  In v (remap_row indices row) -> v = empty \/ In v row.
Proof.
  unfold remap_row. intros H. apply in_map_iff in H.
  destruct H as [[j|] [<- _]]; [|now left].
  destruct (Nat.ltb j (length row)) eqn:E; [|now left].
  apply Nat.ltb_lt in E. right. now apply nth_In.
Qed.

(** X4.  Text never moves between rows: every cell of an output data
    row that is text or missing, not a number, is the empty string or a
    cell of the target row with the same index.  Numbers are left out,
    since pandas may store a number of a rebuilt data column as a
    float. *)
Theorem standardize_sheet_row_local (base_df new_df out : DataFrame)
        (r : nat) (out_row : list cell) (v : cell) :
  header_row < len base_df ->
  header_row < len new_df ->
  outcome (standardize_sheet base_df new_df) = Ok out ->
  nth_error (rows out) (S header_row + r) = Some out_row ->
  In v out_row ->
  (forall z, v <> Num z) ->
  v = Str "" \/
  exists row,
    nth_error (rows new_df) (S header_row + r) = Some row /\ In v row.
Proof.
  intros Hb Hn H Hr Hv _.
  destruct (standardize_sheet_Ok _ _ _ Hb Hn H) as [_ ->].
  cbn [rows] in Hr. rewrite assembled_data in Hr by exact Hn.
  destruct (nth_error (rows new_df) (S header_row + r)) as [row|];
    [|discriminate].
  injection Hr as <-. apply remap_row_In in Hv.
  destruct Hv as [Hv|Hv]; [now left|]. right. now exists row.
Qed.

Lemma standardize_sheet_row_local_witness :
  header_row < len ex_base /\
  header_row < len wide_target /\
  exists out out_row,
    outcome (standardize_sheet ex_base wide_target) = Ok out /\
    nth_error (rows out) 11 = Some out_row /\
    In (Str "Bob") out_row /\
    (forall z, Str "Bob" <> Num z) /\
    exists row,
      nth_error (rows wide_target) 11 = Some row /\ In (Str "Bob") row.
Proof.
  assert (Hb : header_row < len ex_base) by apply sheet_len.
  assert (Hn : header_row < len wide_target) by apply sheet_len.
  split; [exact Hb|]. split; [exact Hn|].
  assert (Hex : exists out,
             outcome (standardize_sheet ex_base wide_target) = Ok out /\
             nth_error (rows out) 11
             = Some [Str "2024-01-02"; Str "Bob"; Str "done"]).
  { eexists. split; reflexivity. }
  destruct Hex as [out [Hout Hrow]].
  exists out, [Str "2024-01-02"; Str "Bob"; Str "done"].
  assert (Hin : In (Str "Bob") [Str "2024-01-02"; Str "Bob"; Str "done"])
    by (simpl; tauto).
  split; [exact Hout|]. split; [exact Hrow|]. split; [exact Hin|].
  split; [discriminate|].
  destruct (standardize_sheet_row_local ex_base wide_target out 1 _
              (Str "Bob") Hb Hn Hout Hrow Hin ltac:(discriminate))
    as [Hempty|Hfound].
  - discriminate Hempty.
  - exact Hfound.
Defined.


Lemma last_index_In (h : cell) (l : list cell) :
  In h l -> exists j, last_index h l = Some j.
Proof.
  intros H. destruct (last_index h l) as [j|] eqn:E; [now exists j|].
  apply last_index_None in E. contradiction.
Qed.







Lemma last_index_NoDup (l : list cell) (i : nat) (h : cell) :
  NoDup l -> nth_error l i = Some h -> last_index h l = Some i.
Proof.
  intros Hnd Hi.
  destruct (last_index_In h l (nth_error_In _ _ Hi)) as [j Ej].
  destruct (last_index_Some _ _ _ Ej) as [Hj _].
  rewrite Ej. f_equal.
  apply (proj1 (NoDup_nth_error l) Hnd).
  - apply nth_error_Some. congruence.
  - congruence.
Qed.

(** With distinct, truthy labels a row as wide as the header is remapped
    onto itself. *)
Lemma remap_row_self (headers row : list cell) :
  NoDup headers ->
  Forall (fun c => truthy c = true) headers ->
  length row = length headers ->
  remap_row (new_col_indices headers headers) row = row.
Proof.
  intros Hnd Ht Hlen. apply nth_error_ext. intros i.
  destruct (nth_error headers i) as [h|] eqn:Hi.
  - rewrite (remap_row_nth _ _ _ _
               (new_col_indices_nth _ headers _ _ Hi)).
    rewrite Forall_forall in Ht.
    rewrite (Ht h (nth_error_In _ _ Hi)), (last_index_NoDup _ _ _ Hnd Hi).
    assert (Hlt : i < length row).
    { rewrite Hlen. apply nth_error_Some. congruence. }
    replace (Nat.ltb i (length row)) with true
      by (symmetry; now apply Nat.ltb_lt).
    symmetry. now apply nth_error_nth'.
  - apply nth_error_None in Hi.
    transitivity (@None cell); [|symmetry]; apply nth_error_None.
    + now rewrite remap_row_length, new_col_indices_length.
    + lia.
Qed.

(** X6.  A rectangular sheet of at least 10 rows whose row-9 labels are
    distinct non-empty strings, and whose data rows hold text or
    missing cells only, is its own standardization:
    [standardize_sheet] of the sheet against itself returns the same
    rows under the integer column labels.  Data rows holding numbers
    are left out, since pandas may store a number of a rebuilt data
    column as a float. *)
Theorem standardize_sheet_self (df : DataFrame) :
  header_row < len df ->
  wf_df df ->
  NoDup (iloc_row header_row df) ->
  Forall (fun c => exists s, c = Str s /\ s <> "")
         (iloc_row header_row df) ->
  Forall (fun row => Forall (fun v => forall z, v <> Num z) row)
         (skipn (S header_row) (rows df)) ->
  standardize_sheet df df = ([], Ok (mkDF (range (shape1 df)) (rows df))).
Proof.
  intros Hn Hwf Hnd Hstr _.
  assert (Hlab : Forall (fun c => c <> NaN /\ truthy c = true)
                        (iloc_row header_row df)).
  { revert Hstr. apply Forall_impl. intros c [s [-> Hs]].
    split; [discriminate|]. simpl. apply negb_true_iff.
    now apply String.eqb_neq. }
  assert (Hrow : nth_error (rows df) header_row
                 = Some (iloc_row header_row df)).
  { unfold iloc_row. now apply nth_error_nth'. }
  assert (Hh : base_headers_of df = iloc_row header_row df).
  { unfold base_headers_of.
    rewrite <- (map_id (iloc_row header_row df)) at 2.
    apply map_ext_Forall. revert Hlab. apply Forall_impl.
    intros c [Hc _]. now destruct c. }
  assert (Hw : length (iloc_row header_row df) = shape1 df).
  { unfold wf_df in Hwf. rewrite Forall_forall in Hwf.
    apply Hwf. eapply nth_error_In. exact Hrow. }
  assert (Hf : labels_fresh df (length (base_headers_of df))).
  { intros i Hi. rewrite Hh, Hw in Hi. lia. }
  rewrite (standardize_sheet_returns _ _ Hn Hn Hf).
  rewrite Hh, Hw. do 3 f_equal.
  unfold assembled_rows.
  change (new_headers_of df) with (base_headers_of df).
  rewrite Hh, Hw.
  assert (Hmeta : fit_meta_rows (shape1 df) (iloc_rows_to header_row df)
                  = iloc_rows_to header_row df).
  { unfold fit_meta_rows, shape1, iloc_rows_to. cbn [columns].
    now rewrite Nat.ltb_irrefl. }
  rewrite Hmeta. cbn [rows iloc_rows_to].
  assert (Hdata : map (remap_row
                         (new_col_indices (iloc_row header_row df)
                                          (iloc_row header_row df)))
                      (skipn (header_row + 1) (rows df))
                  = skipn (header_row + 1) (rows df)).
  { rewrite <- (map_id (skipn (header_row + 1) (rows df))) at 2.
    apply map_ext_in. intros row Hin.
    apply remap_row_self.
    - exact Hnd.
    - revert Hlab. apply Forall_impl. now intros c [_ Hc].
    - rewrite Hw. unfold wf_df in Hwf. rewrite Forall_forall in Hwf.
      apply Hwf.
      rewrite <- (firstn_skipn (header_row + 1) (rows df)).
      apply in_or_app. now right. }
  rewrite Hdata.
  replace (header_row + 1) with (S header_row) by lia.
  cbn [app]. now apply firstn_skipn_middle.
Qed.

Lemma standardize_sheet_self_witness :
  header_row < len ex_target /\
  wf_df ex_target /\
  NoDup (iloc_row header_row ex_target) /\
  Forall (fun c => exists s, c = Str s /\ s <> "")
         (iloc_row header_row ex_target) /\
  Forall (fun row => Forall (fun v => forall z, v <> Num z) row)
         (skipn (S header_row) (rows ex_target)) /\
  standardize_sheet ex_target ex_target
  = ([], Ok (mkDF [Num 0; Num 1] (rows ex_target))).
Proof.
  assert (Hn : header_row < len ex_target) by apply sheet_len.
  assert (Hwf : wf_df ex_target).
  { apply sample_wf; [reflexivity|reflexivity|repeat constructor]. }
  assert (Hnd : NoDup (iloc_row header_row ex_target)).
  { repeat (constructor; [simpl; intuition discriminate|]). constructor. }
  assert (Hlab : Forall (fun c => exists s, c = Str s /\ s <> "")
                        (iloc_row header_row ex_target)).
  { repeat constructor.
    - exists "Name". split; [reflexivity|discriminate].
    - exists "Date". split; [reflexivity|discriminate]. }
  assert (Hdata : Forall (fun row => Forall (fun v => forall z, v <> Num z)
                                            row)
                         (skipn (S header_row) (rows ex_target))).
  { repeat constructor; discriminate. }
  split; [exact Hn|]. split; [exact Hwf|]. split; [exact Hnd|].
  split; [exact Hlab|]. split; [exact Hdata|].
  exact (standardize_sheet_self ex_target Hn Hwf Hnd Hlab Hdata).
Defined.

(* ================================================================= *)
(** ** More on [standardize_data] *)


Lemma standardize_data_returns (w : world) (base_file new_file : string) :
  standardize_data w base_file new_file
  = (printed (standardize_data w base_file new_file), Ok tt).
Proof.
  unfold standardize_data. rewrite try_except_all.
  match goal with
  | |- (match ?m with _ => _ end) = _ => destruct m as [out [[]|e]]
  end.
  - reflexivity.
  - cbn [printed fst]. now rewrite error_report_returns.
Qed.

Lemma save_step_cases (w : world) (ss : workbook) (new_file : string) :
  save_step w ss new_file
  = if String.eqb (lower (splitext_ext new_file)) ".xlsx"
    then match excel_writer w new_file ss with
         | Ok _ =>
             ([ExcelWrite new_file ss;
               Stdout (nl ++ "File " ++ new_file
                       ++ " has been standardized successfully!")%string;
               Stdout
                 "All sheets have their column headers replaced as requested."],
              Ok tt)
         | Raise e =>
             if is_PermissionError e
             then (ExcelWrite new_file ss
                   :: printed (save_failure_report new_file), Ok tt)
             else ([ExcelWrite new_file ss], Raise e)
         end
    else ([], Raise (ValueError
                       ("Unsupported file format: "
                        ++ lower (splitext_ext new_file)
                        ++ ". Please use .xlsx files.")%string)).
Proof.
  unfold save_step, save_file.
  destruct (String.eqb _ ".xlsx"); [|reflexivity].
  destruct (excel_writer w new_file ss) as [[]|e]; [reflexivity|].
  cbn [bind try_except]. destruct (is_PermissionError e); reflexivity.
Qed.

(** What the run prints once both files are read and the loop over the
    sheets has gone through. *)
Lemma standardize_data_after_loop (w : world) (base_file new_file : string)
      (base_sheets new_sheets ss : workbook) (out : list event) :
  read_file w base_file = ([], Ok base_sheets) ->
  read_file w new_file = ([], Ok new_sheets) ->
  process_sheets base_sheets new_sheets (dict_keys base_sheets) []
  = (out, Ok ss) ->
  standardize_data w base_file new_file
  = match outcome (save_step w ss new_file) with
    | Ok _ => (out ++ printed (save_step w ss new_file), Ok tt)
    | Raise e =>
        (out ++ printed (save_step w ss new_file)
         ++ printed (error_report e), Ok tt)
    end.
Proof.
  intros Hb Hn Hloop.
  rewrite (standardize_data_reads _ _ _ _ _ Hb Hn).
  rewrite (bind_Ok_l _ _ _ _ Hloop), try_except_all.
  destruct (save_step w ss new_file) as [o [[]|e]]; cbn [printed outcome
    fst snd]; [reflexivity|].
  now rewrite error_report_returns, app_assoc.
Qed.

(** Where a write comes from: both reads and the whole loop went
    through, and the file is the new file, named [.xlsx]. *)
Lemma standardize_data_write_inv (w : world) (base_file new_file : string)
      (path : string) (wb : workbook) :
  In (ExcelWrite path wb)
     (printed (standardize_data w base_file new_file)) ->
  exists base_sheets new_sheets out,
    read_file w base_file = ([], Ok base_sheets) /\
    read_file w new_file = ([], Ok new_sheets) /\
    process_sheets base_sheets new_sheets (dict_keys base_sheets) []
    = (out, Ok wb) /\
    path = new_file /\
    String.eqb (lower (splitext_ext new_file)) ".xlsx" = true.
Proof.
  intros Hin.
  pose proof (printed_read_file w base_file) as Hpb.
  pose proof (printed_read_file w new_file) as Hpn.
  destruct (read_file w base_file) as [ob [base_sheets|e]] eqn:Hb;
    cbn [printed fst] in Hpb; subst ob.
  2:{ unfold standardize_data in Hin. rewrite Hb in Hin.
      cbn [bind] in Hin. rewrite try_except_all in Hin.
      cbn [printed fst app] in Hin.
      now apply (only_prints_no_write (error_report e) path wb
                   (only_prints_error_report e)) in Hin. }
  destruct (read_file w new_file) as [on [new_sheets|e]] eqn:Hn;
    cbn [printed fst] in Hpn; subst on.
  2:{ unfold standardize_data in Hin. rewrite Hb, bind_ret_l, Hn in Hin.
      cbn [bind] in Hin. rewrite try_except_all in Hin.
      cbn [printed fst app] in Hin.
      now apply (only_prints_no_write (error_report e) path wb
                   (only_prints_error_report e)) in Hin. }
  pose proof (only_prints_process_sheets base_sheets new_sheets
                (dict_keys base_sheets) []) as Hp.
  destruct (process_sheets base_sheets new_sheets
              (dict_keys base_sheets) []) as [out [ss|e]] eqn:Hloop.
  2:{ rewrite (standardize_data_reads _ _ _ _ _ Hb Hn), Hloop in Hin.
      cbn [bind] in Hin. rewrite try_except_all in Hin.
      cbn [printed fst] in Hin. apply in_app_or in Hin.
      destruct Hin as [Hin|Hin].
      - now apply (only_prints_no_write (out, @Raise workbook e) path wb Hp)
          in Hin.
      - now apply (only_prints_no_write (error_report e) path wb
                     (only_prints_error_report e)) in Hin. }
  rewrite (standardize_data_after_loop _ _ _ _ _ _ _ Hb Hn Hloop) in Hin.
  assert (Hs : In (ExcelWrite path wb) (printed (save_step w ss new_file))).
  { destruct (outcome (save_step w ss new_file)) as [[]|e];
      cbn [printed fst] in Hin; apply in_app_or in Hin;
      destruct Hin as [Hin|Hin];
      try (now apply (only_prints_no_write (out, Ok ss) path wb Hp) in Hin);
      try exact Hin.
    apply in_app_or in Hin. destruct Hin as [Hin|Hin]; [exact Hin|].
    now apply (only_prints_no_write (error_report e) path wb
                 (only_prints_error_report e)) in Hin. }
  assert (Hext : String.eqb (lower (splitext_ext new_file)) ".xlsx" = true).
  { rewrite save_step_cases in Hs.
    destruct (String.eqb _ ".xlsx"); [reflexivity|]. destruct Hs. }
  apply save_step_writes in Hs. destruct Hs as [-> ->].
  now exists base_sheets, new_sheets, out.
Qed.

(** X8.  A target whose extension is not [.xlsx], a [.csv] file for
    instance, is never written: the run hands nothing to the writer,
    and when both reads and all sheets went through it ends with the
    report of the [ValueError] that [save_file] raises. *)
Theorem non_xlsx_target_not_saved (w : world) (base_file new_file : string) :
  String.eqb (lower (splitext_ext new_file)) ".xlsx" = false ->
  (forall path wb,
      ~ In (ExcelWrite path wb)
           (printed (standardize_data w base_file new_file))) /\
  (forall base_sheets new_sheets ss out,
      read_file w base_file = ([], Ok base_sheets) ->
      read_file w new_file = ([], Ok new_sheets) ->
      process_sheets base_sheets new_sheets (dict_keys base_sheets) []
      = (out, Ok ss) ->
      standardize_data w base_file new_file
      = (out ++ printed (error_report
                           (ValueError
                              ("Unsupported file format: "
                               ++ lower (splitext_ext new_file)
                               ++ ". Please use .xlsx files.")%string)),
         Ok tt)).
Proof.
  intros Hext. split.
  - intros path wb Hin. apply standardize_data_write_inv in Hin.
    destruct Hin as (b & n & out & _ & _ & _ & _ & Hx). congruence.
  - intros base_sheets new_sheets ss out Hb Hn Hloop.
    rewrite (standardize_data_after_loop _ _ _ _ _ _ _ Hb Hn Hloop).
    now rewrite save_step_cases, Hext.
Qed.

Lemma non_xlsx_target_not_saved_witness :
  String.eqb (lower (splitext_ext "data.csv")) ".xlsx" = false /\
  (forall path wb,
      ~ In (ExcelWrite path wb)
           (printed (standardize_data office_world "base.csv"
                                      "data.csv"))) /\
  nth_error (printed (standardize_data office_world "base.csv" "data.csv"))
            4
  = Some (Stdout
      "An error occurred: Unsupported file format: .csv. Please use .xlsx files.").
Proof.
  assert (Hext : String.eqb (lower (splitext_ext "data.csv")) ".xlsx"
                 = false) by reflexivity.
  destruct (non_xlsx_target_not_saved office_world "base.csv" "data.csv"
              Hext) as [Hno Hreport].
  split; [exact Hext|]. split; [exact Hno|].
  pose (loop := process_sheets [("Sheet1", ex_base)] [("Sheet1", ex_target)]
                               ["Sheet1"] []).
  pose (ss := match outcome loop with Ok a => a | Raise _ => [] end).
  rewrite (Hreport [("Sheet1", ex_base)] [("Sheet1", ex_target)] ss
             (printed loop) eq_refl eq_refl eq_refl).
  reflexivity.
Defined.

(** X9.  When both files are read, every sheet is processed and the
    writer completes, the run prints the lines of the loop, hands the
    standardized workbook to the writer under the new file's path, and
    ends with the two success lines. *)
Theorem standardize_data_success (w : world) (base_file new_file : string)
        (base_sheets new_sheets ss : workbook) (out : list event) :
  read_file w base_file = ([], Ok base_sheets) ->
  read_file w new_file = ([], Ok new_sheets) ->
  process_sheets base_sheets new_sheets (dict_keys base_sheets) []
  = (out, Ok ss) ->
  String.eqb (lower (splitext_ext new_file)) ".xlsx" = true ->
  excel_writer w new_file ss = Ok tt ->
  standardize_data w base_file new_file
  = (out
     ++ [ExcelWrite new_file ss;
         Stdout (nl ++ "File " ++ new_file
                 ++ " has been standardized successfully!")%string;
         Stdout "All sheets have their column headers replaced as requested."],
     Ok tt).
Proof.
  intros Hb Hn Hloop Hext Hw.
  rewrite (standardize_data_after_loop _ _ _ _ _ _ _ Hb Hn Hloop).
  now rewrite save_step_cases, Hext, Hw.
Qed.

Lemma standardize_data_success_witness :
  let loop := process_sheets base_book full_book (dict_keys base_book) [] in
  exists ss,
    read_file office_world "base.xlsx" = ([], Ok base_book) /\
    read_file office_world "full.xlsx" = ([], Ok full_book) /\
    loop = (printed loop, Ok ss) /\
    String.eqb (lower (splitext_ext "full.xlsx")) ".xlsx" = true /\
    excel_writer office_world "full.xlsx" ss = Ok tt /\
    standardize_data office_world "base.xlsx" "full.xlsx"
    = (printed loop
       ++ [ExcelWrite "full.xlsx" ss;
           Stdout (nl ++ "File full.xlsx has been standardized successfully!")%string;
           Stdout
             "All sheets have their column headers replaced as requested."],
       Ok tt).
Proof.
  intros loop.
  pose (ss := match outcome loop with Ok a => a | Raise _ => [] end).
  exists ss.
  assert (Hb : read_file office_world "base.xlsx" = ([], Ok base_book))
    by reflexivity.
  assert (Hn : read_file office_world "full.xlsx" = ([], Ok full_book))
    by reflexivity.
  assert (Hloop : loop = (printed loop, Ok ss)) by reflexivity.
  assert (Hext : String.eqb (lower (splitext_ext "full.xlsx")) ".xlsx"
                 = true) by reflexivity.
  assert (Hw : excel_writer office_world "full.xlsx" ss = Ok tt)
    by reflexivity.
  split; [exact Hb|]. split; [exact Hn|]. split; [exact Hloop|].
  split; [exact Hext|]. split; [exact Hw|].
  exact (standardize_data_success office_world "base.xlsx" "full.xlsx"
           base_book full_book ss (printed loop) Hb Hn Hloop Hext Hw).
Defined.

(** X10.  When the writer raises, a [PermissionError] is answered by the
    inner handler, which prints the guided message about the locked
    file, and no "An error occurred" line; any other exception goes to
    the outer handler, which prints that line.  In both cases the
    function returns normally. *)
Theorem standardize_data_save_failure (w : world)
        (base_file new_file : string)
        (base_sheets new_sheets ss : workbook) (out : list event)
        (e : exn) :
  read_file w base_file = ([], Ok base_sheets) ->
  read_file w new_file = ([], Ok new_sheets) ->
  process_sheets base_sheets new_sheets (dict_keys base_sheets) []
  = (out, Ok ss) ->
  String.eqb (lower (splitext_ext new_file)) ".xlsx" = true ->
  excel_writer w new_file ss = Raise e ->
  standardize_data w base_file new_file
  = if is_PermissionError e
    then (out ++ ExcelWrite new_file ss
              :: printed (save_failure_report new_file), Ok tt)
    else (out ++ ExcelWrite new_file ss :: printed (error_report e),
          Ok tt).
Proof.
  intros Hb Hn Hloop Hext Hw.
  rewrite (standardize_data_after_loop _ _ _ _ _ _ _ Hb Hn Hloop).
  rewrite save_step_cases, Hext, Hw.
  now destruct (is_PermissionError e).
Qed.

Lemma standardize_data_save_failure_witness :
  let loop := process_sheets base_book full_book (dict_keys base_book) [] in
  exists ss,
    read_file office_world "base.xlsx" = ([], Ok base_book) /\
    read_file office_world "locked.xlsx" = ([], Ok full_book) /\
    loop = (printed loop, Ok ss) /\
    String.eqb (lower (splitext_ext "locked.xlsx")) ".xlsx" = true /\
    excel_writer office_world "locked.xlsx" ss
    = Raise (PermissionError "[Errno 13] Permission denied: 'locked.xlsx'") /\
    standardize_data office_world "base.xlsx" "locked.xlsx"
    = (printed loop
       ++ ExcelWrite "locked.xlsx" ss
          :: printed (save_failure_report "locked.xlsx"),
       Ok tt).
Proof.
  intros loop.
  pose (ss := match outcome loop with Ok a => a | Raise _ => [] end).
  exists ss.
  assert (Hb : read_file office_world "base.xlsx" = ([], Ok base_book))
    by reflexivity.
  assert (Hn : read_file office_world "locked.xlsx" = ([], Ok full_book))
    by reflexivity.
  assert (Hloop : loop = (printed loop, Ok ss)) by reflexivity.
  assert (Hext : String.eqb (lower (splitext_ext "locked.xlsx")) ".xlsx"
                 = true) by reflexivity.
  assert (Hw : excel_writer office_world "locked.xlsx" ss
               = Raise (PermissionError
                          "[Errno 13] Permission denied: 'locked.xlsx'"))
    by reflexivity.
  split; [exact Hb|]. split; [exact Hn|]. split; [exact Hloop|].
  split; [exact Hext|]. split; [exact Hw|].
  exact (standardize_data_save_failure office_world "base.xlsx"
           "locked.xlsx" base_book full_book ss (printed loop) _
           Hb Hn Hloop Hext Hw).
Defined.

(** X11.  A failed read ends the run at once: when reading the base
    file raises, or the base file is read and reading the new file
    raises, the run prints the report of that exception and nothing
    else. *)
Theorem standardize_data_read_failure (w : world)
        (base_file new_file : string) (e : exn) :
  outcome (read_file w base_file) = Raise e \/
  ((exists base_sheets, outcome (read_file w base_file) = Ok base_sheets) /\
   outcome (read_file w new_file) = Raise e) ->
  standardize_data w base_file new_file
  = (printed (error_report e), Ok tt).
Proof.
  intros H. unfold standardize_data. rewrite try_except_all.
  pose proof (printed_read_file w base_file) as Hpb.
  pose proof (printed_read_file w new_file) as Hpn.
  destruct (read_file w base_file) as [ob [b|eb]];
    cbn [printed outcome fst snd] in *; subst ob.
  - destruct H as [H|[_ H]]; [discriminate|].
    rewrite bind_ret_l.
    destruct (read_file w new_file) as [on [n|en]];
      cbn [printed outcome fst snd] in *; subst on; [discriminate|].
    injection H as ->. cbn [bind app].
    now rewrite error_report_returns.
  - destruct H as [H|[[b Hb] _]]; [|discriminate].
    injection H as ->. cbn [bind app].
    now rewrite error_report_returns.
Qed.

Lemma standardize_data_read_failure_witness :
  outcome (read_file office_world "base.txt")
  = Raise (ValueError
       "Unsupported file format: .txt. Please use .csv or .xlsx files.") /\
  standardize_data office_world "base.txt" "full.xlsx"
  = ([Stdout
        "An error occurred: Unsupported file format: .txt. Please use .csv or .xlsx files."],
     Ok tt).
Proof.
  assert (H : outcome (read_file office_world "base.txt")
              = Raise (ValueError
       "Unsupported file format: .txt. Please use .csv or .xlsx files."))
    by reflexivity.
  split; [exact H|].
  exact (standardize_data_read_failure office_world "base.txt" "full.xlsx"
           _ (or_introl H)).
Defined.

Lemma titled_rows (df : DataFrame) (title : string) :
  rows (titled df title) = rows df.
Proof. unfold titled. now destruct (Nat.eqb (shape1 df) 0). Qed.

Lemma string_get_set (k k' : string) (v : DataFrame) (d : workbook) :
  dict_get String.eqb k (dict_set String.eqb k' v d)
  = if String.eqb k k' then Some v else dict_get String.eqb k d.
Proof. apply dict_get_set, string_eqb_eq. Qed.

(** One turn of the loop stores the titled form of the sheet it
    fetched. *)
Lemma process_sheet_value (base_sheets new_sheets acc acc' : workbook)
      (sheet_name : string) (out : list event) :
  process_sheet base_sheets new_sheets acc sheet_name = (out, Ok acc') ->
  exists sheet o,
    fetched_sheet base_sheets new_sheets sheet_name = (o, Ok sheet) /\
    acc' = dict_set String.eqb sheet_name (titled sheet report_title) acc.
Proof.
  unfold process_sheet. intros H.
  invert_bind H. rename a into sheet. rename Hm into Hfetch.
  invert_bind H. rewrite set_column_headers_eq in Hm.
  injection Hm as _ <-.
  do 7 invert_bind H.
  unfold ret in H. injection H as _ <-.
  exists sheet. eexists. split; [exact Hfetch|reflexivity].
Qed.

Lemma process_sheets_values (base_sheets new_sheets : workbook)
      (names : list string) :
  forall acc acc' out,
    NoDup names ->
    process_sheets base_sheets new_sheets names acc = (out, Ok acc') ->
    (forall k, ~ In k names ->
               dict_get String.eqb k acc' = dict_get String.eqb k acc) /\
    (forall k, In k names ->
               exists sheet o,
                 fetched_sheet base_sheets new_sheets k = (o, Ok sheet) /\
                 dict_get String.eqb k acc'
                 = Some (titled sheet report_title)).
Proof.
  induction names as [|x names IH]; intros acc acc' out Hnd H; simpl in H.
  - unfold ret in H. injection H as _ <-. split; [reflexivity|].
    intros k [].
  - invert_bind H. apply process_sheet_value in Hm.
    destruct Hm as [sheet [o [Hfetch ->]]].
    inversion Hnd as [|? ? Hx Hnd']; subst.
    destruct (IH _ _ _ Hnd' H) as [Hout Hin]. split.
    + intros k Hk. rewrite Hout by (intros Hk'; apply Hk; now right).
      rewrite string_get_set.
      destruct (String.eqb k x) eqn:E; [|reflexivity].
      apply String.eqb_eq in E. subst. exfalso. apply Hk. now left.
    + intros k [<-|Hk]; [|now apply Hin].
      exists sheet, o. split; [exact Hfetch|].
      rewrite (Hout x Hx), string_get_set. now rewrite String.eqb_refl.
Qed.

Lemma getitem_Ok {V} (k : string) (d : dict string V) (o : list event)
      (v : V) :
  getitem k d = (o, Ok v) -> dict_get String.eqb k d = Some v.
Proof.
  unfold getitem. destruct (dict_get String.eqb k d); [|discriminate].
  intros H. now injection H as _ <-.
Qed.

(** X12.  In every workbook handed to the writer, the sheets named
    "Doc info" and "Summary" are the target's own sheets under the
    title: their rows are the target's rows, cell for cell. *)
Theorem reserved_sheet_passed_through (w : world)
        (base_file new_file path : string)
        (base_sheets new_sheets wb : workbook) (sheet_name : string) :
  outcome (read_file w base_file) = Ok base_sheets ->
  outcome (read_file w new_file) = Ok new_sheets ->
  NoDup (dict_keys base_sheets) ->
  In (ExcelWrite path wb)
     (printed (standardize_data w base_file new_file)) ->
  In sheet_name (dict_keys base_sheets) ->
  sheet_name = "Doc info" \/ sheet_name = "Summary" ->
  exists new_df written,
    dict_get String.eqb sheet_name new_sheets = Some new_df /\
    dict_get String.eqb sheet_name wb = Some written /\
    set_column_headers new_df report_title = ([], Ok written) /\
    rows written = rows new_df.
Proof.
  intros Hb Hn Hnd Hin Hname Hres.
  apply standardize_data_write_inv in Hin.
  destruct Hin as (b & n & out & Hb' & Hn' & Hloop & _ & _).
  rewrite Hb' in Hb. rewrite Hn' in Hn. cbn [outcome snd] in Hb, Hn.
  injection Hb as ->. injection Hn as ->.
  destruct (process_sheets_values _ _ _ _ _ _ Hnd Hloop) as [_ Hval].
  destruct (Hval sheet_name Hname) as [sheet [o [Hfetch Hget]]].
  unfold fetched_sheet in Hfetch.
  replace (is_reserved sheet_name) with true in Hfetch
    by (destruct Hres as [-> | ->]; reflexivity).
  apply getitem_Ok in Hfetch.
  exists sheet, (titled sheet report_title).
  split; [exact Hfetch|]. split; [exact Hget|].
  split; [apply set_column_headers_eq|apply titled_rows].
Qed.

Lemma reserved_sheet_passed_through_witness :
  outcome (read_file office_world "base.xlsx") = Ok base_book /\
  outcome (read_file office_world "full.xlsx") = Ok full_book /\
  NoDup (dict_keys base_book) /\
  exists wb written,
    In (ExcelWrite "full.xlsx" wb)
       (printed (standardize_data office_world "base.xlsx" "full.xlsx")) /\
    In "Doc info" (dict_keys base_book) /\
    dict_get String.eqb "Doc info" full_book = Some short_sheet /\
    dict_get String.eqb "Doc info" wb = Some written /\
    rows written = rows short_sheet.
Proof.
  assert (Hb : outcome (read_file office_world "base.xlsx") = Ok base_book)
    by reflexivity.
  assert (Hn : outcome (read_file office_world "full.xlsx") = Ok full_book)
    by reflexivity.
  assert (Hnd : NoDup (dict_keys base_book)) by distinct_names.
  split; [exact Hb|]. split; [exact Hn|]. split; [exact Hnd|].
  assert (Hw : exists wb,
             nth_error (printed (standardize_data office_world "base.xlsx"
                                                  "full.xlsx")) 12
             = Some (ExcelWrite "full.xlsx" wb)).
  { eexists. cbv. reflexivity. }
  destruct Hw as [wb Hw]. apply nth_error_In in Hw.
  assert (Hname : In "Doc info" (dict_keys base_book)) by (simpl; tauto).
  destruct (reserved_sheet_passed_through office_world "base.xlsx"
              "full.xlsx" "full.xlsx" base_book full_book wb "Doc info"
              Hb Hn Hnd Hw Hname (or_introl eq_refl))
    as [new_df [written [Hget [Hwritten [_ Hrows]]]]].
  exists wb, written. split; [exact Hw|]. split; [exact Hname|].
  assert (Hs : dict_get String.eqb "Doc info" full_book = Some short_sheet)
    by reflexivity.
  rewrite Hs in Hget. injection Hget as <-.
  split; [exact Hs|]. split; [exact Hwritten|exact Hrows].
Defined.

(** X13.  In every workbook handed to the writer, a sheet with any other
    name is the sheet [standardize_sheet] returned for the base and the
    target sheet of that name, put under the title by
    [set_column_headers]. *)
Theorem standardized_sheet_written (w : world)
        (base_file new_file path : string)
        (base_sheets new_sheets wb : workbook) (sheet_name : string) :
  outcome (read_file w base_file) = Ok base_sheets ->
  outcome (read_file w new_file) = Ok new_sheets ->
  NoDup (dict_keys base_sheets) ->
  In (ExcelWrite path wb)
     (printed (standardize_data w base_file new_file)) ->
  In sheet_name (dict_keys base_sheets) ->
  sheet_name <> "Doc info" ->
  sheet_name <> "Summary" ->
  exists base_df new_df standardized written,
    dict_get String.eqb sheet_name base_sheets = Some base_df /\
    dict_get String.eqb sheet_name new_sheets = Some new_df /\
    outcome (standardize_sheet base_df new_df) = Ok standardized /\
    set_column_headers standardized report_title = ([], Ok written) /\
    dict_get String.eqb sheet_name wb = Some written /\
    rows written = rows standardized.
Proof.
  intros Hb Hn Hnd Hin Hname Hdoc Hsum.
  apply standardize_data_write_inv in Hin.
  destruct Hin as (b & n & out & Hb' & Hn' & Hloop & _ & _).
  rewrite Hb' in Hb. rewrite Hn' in Hn. cbn [outcome snd] in Hb, Hn.
  injection Hb as ->. injection Hn as ->.
  destruct (process_sheets_values _ _ _ _ _ _ Hnd Hloop) as [_ Hval].
  destruct (Hval sheet_name Hname) as [sheet [o [Hfetch Hget]]].
  unfold fetched_sheet in Hfetch.
  replace (is_reserved sheet_name) with false in Hfetch.
  2:{ symmetry. unfold is_reserved. apply orb_false_iff.
      split; now apply String.eqb_neq. }
  invert_bind Hfetch. apply getitem_Ok in Hm.
  invert_bind Hfetch. apply getitem_Ok in Hm0.
  exists a, a0, sheet, (titled sheet report_title).
  split; [exact Hm|]. split; [exact Hm0|].
  split; [now rewrite Hfetch|].
  split; [apply set_column_headers_eq|].
  split; [exact Hget|apply titled_rows].
Qed.

Lemma standardized_sheet_written_witness :
  outcome (read_file office_world "base.xlsx") = Ok base_book /\
  outcome (read_file office_world "full.xlsx") = Ok full_book /\
  NoDup (dict_keys base_book) /\
  exists wb standardized written,
    In (ExcelWrite "full.xlsx" wb)
       (printed (standardize_data office_world "base.xlsx" "full.xlsx")) /\
    outcome (standardize_sheet ex_base wide_target) = Ok standardized /\
    dict_get String.eqb "A" wb = Some written /\
    rows written = rows standardized.
Proof.
  assert (Hb : outcome (read_file office_world "base.xlsx") = Ok base_book)
    by reflexivity.
  assert (Hn : outcome (read_file office_world "full.xlsx") = Ok full_book)
    by reflexivity.
  assert (Hnd : NoDup (dict_keys base_book)) by distinct_names.
  split; [exact Hb|]. split; [exact Hn|]. split; [exact Hnd|].
  assert (Hw : exists wb,
             nth_error (printed (standardize_data office_world "base.xlsx"
                                                  "full.xlsx")) 12
             = Some (ExcelWrite "full.xlsx" wb)).
  { eexists. cbv. reflexivity. }
  destruct Hw as [wb Hw]. apply nth_error_In in Hw.
  assert (Hname : In "A" (dict_keys base_book)) by (simpl; tauto).
  destruct (standardized_sheet_written office_world "base.xlsx"
              "full.xlsx" "full.xlsx" base_book full_book wb "A"
              Hb Hn Hnd Hw Hname ltac:(discriminate) ltac:(discriminate))
    as (base_df & new_df & standardized & written
        & Hgb & Hgn & Hstd & _ & Hget & Hrows).
  assert (Eb : dict_get String.eqb "A" base_book = Some ex_base)
    by reflexivity.
  assert (En : dict_get String.eqb "A" full_book = Some wide_target)
    by reflexivity.
  rewrite Eb in Hgb. injection Hgb as <-.
  rewrite En in Hgn. injection Hgn as <-.
  exists wb, standardized, written.
  split; [exact Hw|]. split; [exact Hstd|]. split; [exact Hget|exact Hrows].
Defined.

(* ================================================================= *)
(** ** [standardize_folder] *)

Lemma process_file_eq (fs : filesystem) (base_file file_path : string) :
  process_file fs base_file file_path
  = (Stdout (nl ++ "---" ++ nl ++ "Processing file: " ++ file_path)%string
     :: printed (standardize_data (fs_world fs) base_file file_path),
     Ok tt).
Proof.
  unfold process_file.
  pose proof (standardize_data_returns (fs_world fs) base_file file_path)
    as H.
  destruct (standardize_data (fs_world fs) base_file file_path) as [o r].
  cbn [printed fst] in *. injection H as ->. reflexivity.
Qed.

Lemma process_files_eq (fs : filesystem) (base_file : string)
      (files : list string) :
  process_files fs base_file files
  = (flat_map
       (fun file_path =>
          Stdout (nl ++ "---" ++ nl ++ "Processing file: "
                  ++ file_path)%string
          :: printed (standardize_data (fs_world fs) base_file file_path))
       files,
     Ok tt).
Proof.
  induction files as [|f files IH]; [reflexivity|].
  cbn [process_files flat_map]. rewrite process_file_eq, IH.
  reflexivity.
Qed.


Lemma standardize_folder_writes (fs : filesystem)
      (base_file folder_path path : string) (wb : workbook) :
  In (ExcelWrite path wb)
     (printed (standardize_folder fs base_file folder_path)) ->
  In path (candidate_files fs base_file folder_path) /\
  In (ExcelWrite path wb)
     (printed (standardize_data (fs_world fs) base_file path)).
Proof.
  unfold standardize_folder.
  destruct (candidate_files fs base_file folder_path) as [|f files] eqn:E.
  - simpl. intros [H|[]]. discriminate.
  - rewrite process_files_eq. cbn [printed fst]. intros H.
    apply in_flat_map in H. destruct H as [g [Hg [H|H]]]; [discriminate|].
    pose proof H as Hw. apply standardize_data_write_inv in Hw.
    destruct Hw as (_ & _ & _ & _ & _ & _ & -> & _).
    now split.
Qed.

(** X15.  Whatever the folder holds, the batch driver only ever writes
    to a path that one of its two patterns found in the folder, whose
    [os.path.abspath] differs from that of the base file's path and
    whose extension is [.xlsx]; in particular no [.csv] file is
    written.  Nothing is said of a base file reachable under another
    name, which [abspath] does not detect. *)
Theorem standardize_folder_write_targets (fs : filesystem)
        (base_file folder_path path : string) (wb : workbook) :
  In (ExcelWrite path wb)
     (printed (standardize_folder fs base_file folder_path)) ->
  In path (glob fs (path_join folder_path "*.xlsx")
           ++ glob fs (path_join folder_path "*.csv")) /\
  abspath fs path <> abspath fs base_file /\
  lower (splitext_ext path) = ".xlsx".
Proof.
  intros H. apply standardize_folder_writes in H.
  destruct H as [Hc Hw].
  unfold candidate_files in Hc. apply filter_In in Hc.
  destruct Hc as [Hfound Hne]. cbn [flat_map] in Hfound.
  rewrite app_nil_r in Hfound.
  split; [exact Hfound|]. split.
  - apply negb_true_iff in Hne. now apply String.eqb_neq.
  - apply standardize_data_write_inv in Hw.
    destruct Hw as (_ & _ & _ & _ & _ & _ & _ & Hext).
    now apply String.eqb_eq.
Qed.

Lemma standardize_folder_write_targets_witness :
  exists wb,
    In (ExcelWrite "full.xlsx" wb)
       (printed (standardize_folder office_fs "base.xlsx" "reports")) /\
    In "reports/../base.xlsx" (glob office_fs (path_join "reports" "*.xlsx")) /\
    abspath office_fs "full.xlsx" <> abspath office_fs "base.xlsx" /\
    lower (splitext_ext "full.xlsx") = ".xlsx".
Proof.
  assert (Hw : exists wb,
             nth_error (printed (standardize_folder office_fs "base.xlsx"
                                                    "reports")) 13
             = Some (ExcelWrite "full.xlsx" wb)).
  { eexists. cbv. reflexivity. }
  destruct Hw as [wb Hw]. apply nth_error_In in Hw.
  exists wb. split; [exact Hw|]. split; [simpl; tauto|].
  destruct (standardize_folder_write_targets office_fs "base.xlsx"
              "reports" "full.xlsx" wb Hw) as [_ [Hne Hext]].
  split; [exact Hne|exact Hext].
Defined.

(* ================================================================= *)
(** ** [remove_column_numbering] *)

Lemma list_ascii_of_string_app (a b : string) :
  list_ascii_of_string (a ++ b)
  = list_ascii_of_string a ++ list_ascii_of_string b.
Proof. induction a as [|c a IH]; simpl; [reflexivity|now rewrite IH]. Qed.

Lemma skip_digits_all (ds : list ascii) :
  forallb is_digit ds = true -> skip_digits ds = [].
Proof.
  induction ds as [|d ds IH]; simpl; [reflexivity|].
  intros H. apply andb_true_iff in H. destruct H as [-> H]. now apply IH.
Qed.

Lemma skip_digits_keeps_dot (l ds : list ascii) :
  exists pre, skip_digits (l ++ dot :: ds) = pre ++ dot :: ds.
Proof.
  induction l as [|c l [pre IH]]; simpl.
  - now exists [].
  - destruct (is_digit c); [now exists pre|now exists (c :: l)].
Qed.

Lemma sub_numbering_suffix (l ds : list ascii) :
  ds <> [] -> forallb is_digit ds = true ->
  sub_numbering (l ++ dot :: ds) = l.
Proof.
  intros Hne Hds. induction l as [|c l IH]; cbn [sub_numbering app].
  - assert (Hd : digits_to_end ds = true).
    { unfold digits_to_end. destruct ds as [|d ds']; [contradiction|].
      rewrite (skip_digits_all _ Hds). cbn [forallb] in Hds.
      apply andb_true_iff in Hds. destruct Hds as [-> _]. reflexivity. }
    rewrite Ascii.eqb_refl, Hd. cbn [andb].
    now apply skip_digits_all.
  - replace (digits_to_end (l ++ dot :: ds)) with false.
    + rewrite andb_false_r. now rewrite IH.
    + symmetry. unfold digits_to_end.
      destruct (l ++ dot :: ds) as [|x t] eqn:E; [reflexivity|].
      rewrite <- E. apply andb_false_iff. right.
      destruct (skip_digits_keeps_dot l ds) as [pre ->].
      destruct ds as [|d ds]; [contradiction|].
      destruct pre as [|p [|p' pre]]; reflexivity.
Qed.

Lemma uint_digits (d : Decimal.uint) :
  forallb is_digit (list_ascii_of_string (NilEmpty.string_of_uint d))
  = true.
Proof. induction d; simpl; try reflexivity; exact IHd. Qed.

Lemma string_of_nat_digits (k : nat) :
  list_ascii_of_string (string_of_nat k) <> [] /\
  forallb is_digit (list_ascii_of_string (string_of_nat k)) = true.
Proof.
  unfold string_of_nat. split; [|apply uint_digits].
  destruct (Nat.to_uint k) eqn:E; simpl; try discriminate.
  exfalso. pose proof (DecimalNat.Unsigned.of_to k) as H.
  rewrite E in H. simpl in H. subst k. discriminate E.
Qed.

(** X16.  The substitution undoes the numbering pandas gives to repeated
    column names: for every name and every number [k], the label made
    of the name, a dot and the decimal digits of [k] is mapped back to
    the name, and only this one suffix is taken off. *)
Theorem re_sub_numbering_undoes_suffix (name : string) (k : nat) :
  re_sub_numbering (name ++ "." ++ string_of_nat k) = name.
Proof.
  unfold re_sub_numbering.
  rewrite list_ascii_of_string_app.
  change (list_ascii_of_string ("." ++ string_of_nat k))
    with (dot :: list_ascii_of_string (string_of_nat k)).
  destruct (string_of_nat_digits k) as [Hne Hds].
  rewrite (sub_numbering_suffix _ _ Hne Hds).
  apply string_of_list_ascii_of_string.
Qed.

Lemma sub_numbering_no_dot (l : list ascii) :
  ~ In dot l -> sub_numbering l = l.
Proof.
  induction l as [|c l IH]; simpl; intros H; [reflexivity|].
  replace (Ascii.eqb c dot) with false.
  - simpl. rewrite IH; [reflexivity|tauto].
  - symmetry. apply Ascii.eqb_neq. intros ->. tauto.
Qed.

(** X17.  A label that contains no dot is left as it is. *)
Theorem re_sub_numbering_no_dot (col : string) :
  ~ In dot (list_ascii_of_string col) ->
  re_sub_numbering col = col.
Proof.
  intros H. unfold re_sub_numbering.
  rewrite (sub_numbering_no_dot _ H).
  apply string_of_list_ascii_of_string.
Qed.

Lemma re_sub_numbering_no_dot_witness :
  ~ In dot (list_ascii_of_string "Status") /\
  re_sub_numbering "Status" = "Status".
Proof.
  assert (H : ~ In dot (list_ascii_of_string "Status")).
  { simpl. intuition discriminate. }
  split; [exact H|]. exact (re_sub_numbering_no_dot "Status" H).
Defined.

Lemma cell_cell_get_set (k k' v : cell) (d : dict cell cell) :
  dict_get cell_eqb k (dict_set cell_eqb k' v d)
  = if cell_eqb k k' then Some v else dict_get cell_eqb k d.
Proof. apply dict_get_set, cell_eqb_eq. Qed.

Lemma column_mapping_loop_strings (labels : list string) :
  forall acc,
    exists m,
      column_mapping_loop (map Str labels) acc = ([], Ok m) /\
      (forall s, In s labels ->
                 dict_get cell_eqb (Str s) m
                 = Some (Str (re_sub_numbering s))) /\
      (forall k, ~ In k (map Str labels) ->
                 dict_get cell_eqb k m = dict_get cell_eqb k acc).
Proof.
  induction labels as [|x labels IH]; intros acc; simpl.
  - exists acc. split; [reflexivity|]. split; [intros s []|reflexivity].
  - destruct (IH (dict_set cell_eqb (Str x) (Str (re_sub_numbering x)) acc))
      as [m [Hm [Hin Hout]]].
    exists m. split; [exact Hm|]. split.
    + intros s [<-|Hs]; [|now apply Hin].
      destruct (in_dec string_dec x labels) as [Hx|Hx]; [now apply Hin|].
      rewrite Hout.
      * now rewrite cell_cell_get_set, cell_eqb_refl.
      * intros H. apply in_map_iff in H. destruct H as [y [Hy Hy']].
        injection Hy as ->. contradiction.
    + intros k Hk. rewrite Hout by tauto.
      rewrite cell_cell_get_set.
      destruct (cell_eqb k (Str x)) eqn:E; [|reflexivity].
      apply cell_eqb_eq in E. subst. tauto.
Qed.

Lemma mapped_columns_strings (m : dict cell cell) (labels : list string) :
  (forall s, In s labels ->
             dict_get cell_eqb (Str s) m
             = Some (Str (re_sub_numbering s))) ->
  mapped_columns m (map Str labels)
  = ([], Ok (map (fun s => Str (re_sub_numbering s)) labels)).
Proof.
  induction labels as [|x labels IH]; intros H; simpl; [reflexivity|].
  rewrite (H x) by now left.
  rewrite IH by (intros s Hs; apply H; now right).
  reflexivity.
Qed.

(** X18.  On a frame whose column labels are all strings of ASCII
    text, [remove_column_numbering] returns without printing; the rows
    are untouched, the number of columns is the same, and every label,
    also a repeated one, is replaced by its own substitution. *)
Theorem remove_column_numbering_strings (labels : list string)
        (rs : list (list cell)) :
  Forall ascii_text labels ->
  remove_column_numbering (mkDF (map Str labels) rs)
  = ([], Ok (mkDF (map (fun s => Str (re_sub_numbering s)) labels) rs)).
Proof.
  intros _. unfold remove_column_numbering. cbn [columns].
  destruct (column_mapping_loop_strings labels []) as [m [Hm [Hin _]]].
  rewrite Hm, bind_ret_l, (mapped_columns_strings _ _ Hin), bind_ret_l.
  unfold set_columns, shape1. cbn [columns rows].
  now rewrite !length_map, Nat.eqb_refl.
Qed.

Lemma remove_column_numbering_strings_witness :
  Forall ascii_text ["Owner"; "Owner.1"; "Owner.2"; "v1.0 notes"] /\
  remove_column_numbering
    (mkDF [Str "Owner"; Str "Owner.1"; Str "Owner.2"; Str "v1.0 notes"]
          [[Str "a"; Num 1; NaN; Str "d"]])
  = ([], Ok (mkDF [Str "Owner"; Str "Owner"; Str "Owner";
                   Str "v1.0 notes"]
                  [[Str "a"; Num 1; NaN; Str "d"]])).
Proof.
  assert (H : Forall ascii_text
                     ["Owner"; "Owner.1"; "Owner.2"; "v1.0 notes"]).
  { repeat constructor. }
  split; [exact H|].
  exact (remove_column_numbering_strings
           ["Owner"; "Owner.1"; "Owner.2"; "v1.0 notes"]
           [[Str "a"; Num 1; NaN; Str "d"]] H).
Defined.

Lemma column_mapping_loop_raises (cols : list cell) :
  (exists c, In c cols /\ forall s, c <> Str s) ->
  forall acc,
    column_mapping_loop cols acc
    = ([], Raise (OtherException "expected string or bytes-like object")).
Proof.
  induction cols as [|x cols IH]; intros [c [Hc Hns]] acc.
  - destruct Hc.
  - simpl. destruct x as [|s|z]; try reflexivity.
    apply IH. exists c. split; [|exact Hns].
    destruct Hc as [<-|Hc]; [|exact Hc]. now destruct (Hns s).
Qed.

(** X19.  A column label that is not a string, a number or a missing
    label, makes [remove_column_numbering] raise, whatever the other
    labels are: the substitution accepts strings only. *)
Theorem remove_column_numbering_raises (df : DataFrame) (c : cell) :
  In c (columns df) ->
  (forall s, c <> Str s) ->
  exists e, remove_column_numbering df = ([], Raise e).
Proof.
  intros Hc Hns. unfold remove_column_numbering.
  rewrite column_mapping_loop_raises by (exists c; now split).
  eexists. reflexivity.
Qed.

Lemma remove_column_numbering_raises_witness :
  In (Num 2) (columns numbered_target) /\
  (forall s, Num 2 <> Str s) /\
  exists e, remove_column_numbering numbered_target = ([], Raise e).
Proof.
  assert (Hc : In (Num 2) (columns numbered_target)) by (simpl; tauto).
  assert (Hns : forall s, Num 2 <> Str s) by discriminate.
  split; [exact Hc|]. split; [exact Hns|].
  exact (remove_column_numbering_raises numbered_target (Num 2) Hc Hns).
Defined.

(* ================================================================= *)
(** ** [get_input_path] *)

Lemma lstrip_hd (drop : ascii -> bool) (l : list ascii) (c : ascii) :
  hd_error (lstrip drop l) = Some c -> drop c = false.
Proof.
  induction l as [|x l IH]; simpl; [discriminate|].
  destruct (drop x) eqn:E; [exact IH|].
  simpl. intros H. now injection H as <-.
Qed.

Lemma lstrip_suffix (drop : ascii -> bool) (l : list ascii) :
  exists pre, l = pre ++ lstrip drop l.
Proof.
  induction l as [|x l [pre IH]]; simpl.
  - now exists [].
  - destruct (drop x); [|now exists []].
    exists (x :: pre). simpl. now rewrite <- IH.
Qed.

Lemma lstrip_exact (drop : ascii -> bool) (pre l : list ascii) :
  forallb drop pre = true ->
  (forall c, hd_error l = Some c -> drop c = false) ->
  lstrip drop (pre ++ l) = l.
Proof.
  intros Hpre Hl. induction pre as [|x pre IH]; simpl in *.
  - destruct l as [|c l]; [reflexivity|]. simpl.
    now rewrite (Hl c eq_refl).
  - apply andb_true_iff in Hpre. destruct Hpre as [-> Hpre]. now apply IH.
Qed.

Lemma forallb_rev (drop : ascii -> bool) (l : list ascii) :
  forallb drop l = true -> forallb drop (rev l) = true.
Proof.
  rewrite !forallb_forall. intros H x Hx. apply H. now apply in_rev.
Qed.

(** Stripping takes off exactly the droppable characters around a text
    whose own ends are not droppable. *)
Lemma strip_exact (drop : ascii -> bool) (pre l post : list ascii) :
  forallb drop pre = true ->
  forallb drop post = true ->
  (forall c, hd_error l = Some c -> drop c = false) ->
  (forall c, hd_error (rev l) = Some c -> drop c = false) ->
  strip drop (pre ++ l ++ post) = l.
Proof.
  intros Hpre Hpost Hhd Hlast. unfold strip.
  destruct l as [|x l].
  - cbn [app].
    assert (Hall : lstrip drop (pre ++ post) = []).
    { rewrite <- (app_nil_r (pre ++ post)).
      apply lstrip_exact; [|intros c Hc; discriminate].
      rewrite forallb_app. now rewrite Hpre, Hpost. }
    now rewrite Hall.
  - rewrite lstrip_exact;
      [|exact Hpre|intros c Hc; apply Hhd; exact Hc].
    rewrite rev_app_distr, lstrip_exact.
    + apply rev_involutive.
    + now apply forallb_rev.
    + exact Hlast.
Qed.

Lemma strip_ends (drop : ascii -> bool) (l : list ascii) (c : ascii) :
  hd_error (strip drop l) = Some c \/
  hd_error (rev (strip drop l)) = Some c ->
  drop c = false.
Proof.
  unfold strip. rewrite rev_involutive. intros [H|H].
  - destruct (lstrip_suffix drop (rev (lstrip drop l))) as [pre Hpre].
    apply (f_equal (@rev ascii)) in Hpre.
    rewrite rev_involutive, rev_app_distr in Hpre.
    apply (lstrip_hd drop l). rewrite Hpre.
    destruct (rev (lstrip drop (rev (lstrip drop l)))); [discriminate|].
    exact H.
  - now apply lstrip_hd in H.
Qed.

(** X20.  A path typed between double quotes, with blanks around the
    quotes, comes out as the text between the quotes, provided that
    text does not itself begin or end with a double quote. *)
Theorem get_input_path_quoted (blanks blanks' path : string) :
  forallb is_space (list_ascii_of_string blanks) = true ->
  forallb is_space (list_ascii_of_string blanks') = true ->
  hd_error (list_ascii_of_string path) <> Some double_quote ->
  hd_error (rev (list_ascii_of_string path)) <> Some double_quote ->
  get_input_path
    (blanks ++ String double_quote (path ++ String double_quote blanks'))
  = path.
Proof.
  intros Hb Hb' Hhd Hlast. unfold get_input_path.
  rewrite list_ascii_of_string_app. cbn [list_ascii_of_string].
  rewrite list_ascii_of_string_app. cbn [list_ascii_of_string].
  set (lp := list_ascii_of_string path) in *.
  replace (list_ascii_of_string blanks
           ++ double_quote :: lp
           ++ double_quote :: list_ascii_of_string blanks')
    with (list_ascii_of_string blanks
          ++ (double_quote :: lp ++ [double_quote])
          ++ list_ascii_of_string blanks').
  2:{ cbn [app]. now rewrite <- app_assoc. }
  rewrite strip_exact; try assumption.
  - change (double_quote :: lp ++ [double_quote])
      with ([double_quote] ++ lp ++ [double_quote]).
    rewrite strip_exact; try reflexivity.
    + apply string_of_list_ascii_of_string.
    + intros c Hc. apply Ascii.eqb_neq. intros ->. contradiction.
    + intros c Hc. apply Ascii.eqb_neq. intros ->. contradiction.
  - intros c Hc. cbn [hd_error] in Hc. now injection Hc as <-.
  - intros c Hc. cbn [rev] in Hc. rewrite rev_app_distr in Hc.
    cbn [rev app hd_error] in Hc. now injection Hc as <-.
Qed.

Lemma get_input_path_quoted_witness :
  forallb is_space (list_ascii_of_string "  ") = true /\
  forallb is_space (list_ascii_of_string " ") = true /\
  hd_error (list_ascii_of_string "C:\my reports\new file.xlsx")
  <> Some double_quote /\
  hd_error (rev (list_ascii_of_string "C:\my reports\new file.xlsx"))
  <> Some double_quote /\
  get_input_path
    ("  " ++ String double_quote
               ("C:\my reports\new file.xlsx" ++ String double_quote " "))
  = "C:\my reports\new file.xlsx".
Proof.
  assert (H1 : forallb is_space (list_ascii_of_string "  ") = true)
    by reflexivity.
  assert (H2 : forallb is_space (list_ascii_of_string " ") = true)
    by reflexivity.
  assert (H3 : hd_error (list_ascii_of_string "C:\my reports\new file.xlsx")
               <> Some double_quote) by discriminate.
  assert (H4 : hd_error (rev (list_ascii_of_string
                                "C:\my reports\new file.xlsx"))
               <> Some double_quote) by discriminate.
  split; [exact H1|]. split; [exact H2|]. split; [exact H3|].
  split; [exact H4|].
  exact (get_input_path_quoted "  " " " "C:\my reports\new file.xlsx"
           H1 H2 H3 H4).
Defined.

(** X21.  Whatever is typed, the path [get_input_path] returns neither
    begins nor ends with a double quote. *)
Theorem get_input_path_no_outer_quote (path : string) :
  hd_error (list_ascii_of_string (get_input_path path))
  <> Some double_quote /\
  hd_error (rev (list_ascii_of_string (get_input_path path)))
  <> Some double_quote.
Proof.
  unfold get_input_path. rewrite list_ascii_of_string_of_list_ascii.
  split; intros H.
  - apply (fun H' => strip_ends _ _ double_quote (or_introl H')) in H.
    cbv beta in H. now rewrite Ascii.eqb_refl in H.
  - apply (fun H' => strip_ends _ _ double_quote (or_intror H')) in H.
    cbv beta in H. now rewrite Ascii.eqb_refl in H.
Qed.

(** X22.  A path whose first and last characters are ASCII characters
    other than a blank and a double quote is returned as it was
    typed. *)
Theorem get_input_path_plain (path : string) :
  (forall c, hd_error (list_ascii_of_string path) = Some c ->
             is_ascii c = true /\
             is_space c = false /\ c <> double_quote) ->
  (forall c, hd_error (rev (list_ascii_of_string path)) = Some c ->
             is_ascii c = true /\
             is_space c = false /\ c <> double_quote) ->
  get_input_path path = path.
Proof.
  intros Hhd Hlast. unfold get_input_path.
  set (lp := list_ascii_of_string path) in *.
  assert (Hs : forall drop : ascii -> bool,
             (forall c, hd_error lp = Some c -> drop c = false) ->
             (forall c, hd_error (rev lp) = Some c -> drop c = false) ->
             strip drop lp = lp).
  { intros drop H1 H2.
    rewrite <- (app_nil_r lp) at 1.
    change (lp ++ []) with ([] ++ lp ++ []).
    now apply strip_exact. }
  rewrite (Hs is_space);
    [|intros c Hc; now apply Hhd|intros c Hc; now apply Hlast].
  rewrite Hs.
  - apply string_of_list_ascii_of_string.
  - intros c Hc. apply Ascii.eqb_neq. now apply Hhd.
  - intros c Hc. apply Ascii.eqb_neq. now apply Hlast.
Qed.

Lemma get_input_path_plain_witness :
  (forall c, hd_error (list_ascii_of_string "reports/new file.xlsx")
             = Some c ->
             is_ascii c = true /\
             is_space c = false /\ c <> double_quote) /\
  (forall c, hd_error (rev (list_ascii_of_string "reports/new file.xlsx"))
             = Some c ->
             is_ascii c = true /\
             is_space c = false /\ c <> double_quote) /\
  get_input_path "reports/new file.xlsx" = "reports/new file.xlsx".
Proof.
  assert (H1 : forall c,
             hd_error (list_ascii_of_string "reports/new file.xlsx")
             = Some c ->
             is_ascii c = true /\
             is_space c = false /\ c <> double_quote).
  { intros c H. injection H as <-.
    split; [reflexivity|]. split; [reflexivity|discriminate]. }
  assert (H2 : forall c,
             hd_error (rev (list_ascii_of_string "reports/new file.xlsx"))
             = Some c ->
             is_ascii c = true /\
             is_space c = false /\ c <> double_quote).
  { intros c H. injection H as <-.
    split; [reflexivity|]. split; [reflexivity|discriminate]. }
  split; [exact H1|]. split; [exact H2|].
  exact (get_input_path_plain "reports/new file.xlsx" H1 H2).
Defined.
